(** * Windhager climate entities: a shallow embedding of [climate.py]

    The two entity classes of [custom_components/windhager/climate.py] are
    embedded as Rocq functions over an explicit world (the coordinator's
    register snapshot, the trace of requests issued to the device client and
    the coordinator, and the warnings logged).  Python's dynamic values,
    exceptions and the builtins the module calls ([int], [float], [str],
    [dict.get], [list.index], list subscription) are modelled first. *)

From Stdlib Require Import ZArith List Ascii String Bool Lia.
From Stdlib Require Import SpecFloat DecimalString.
From stdpp Require Import base option gmap strings.

Local Open Scope Z_scope.
Local Open Scope string_scope.
Local Open Scope list_scope.

(** ** Python values and exceptions *)

Module Py.

(** IEEE 754 binary64, the representation of a Python [float]. *)
Definition prec : Z := 53.
Definition emax : Z := 1024.

Inductive value :=
| None_
| Int (z : Z)
| Float (f : spec_float)
| Str (s : string).

Inductive exn :=
| ValueError
| TypeError
| IndexError
| AttributeError
| OverflowError.

Inductive result (A : Type) :=
| Ok (a : A)
| Raise (e : exn).
Arguments Ok {A} a.
Arguments Raise {A} e.

Definition exn_eqb (a b : exn) : bool :=
  match a, b with
  | ValueError, ValueError | TypeError, TypeError | IndexError, IndexError
  | AttributeError, AttributeError | OverflowError, OverflowError => true
  | _, _ => false
  end.

(** *** Text scanning shared by [int] and [float]

    Register values are ASCII text; bytes outside ASCII are treated as
    ordinary non-numeric characters.  On ASCII text the two parsers below
    are CPython's; on other text they reject where CPython also accepts
    Unicode decimal digits and strips Unicode whitespace.  A text the
    parsers accept is ASCII, so a statement assuming a successful parse is
    within that range; a statement that depends on a rejection assumes
    ASCII text explicitly ([is_ascii_text] below). *)

Definition code (c : ascii) : nat := nat_of_ascii c.

(** [Py_ISSPACE]: tab, line feed, vertical tab, form feed, carriage return,
    space. *)
Definition is_space (c : ascii) : bool :=
  (Nat.leb 9 (code c) && Nat.leb (code c) 13) || Nat.eqb (code c) 32.

Definition is_digit (c : ascii) : bool :=
  Nat.leb 48 (code c) && Nat.leb (code c) 57.

Definition digit_value (c : ascii) : Z := Z.of_nat (code c) - 48.

Definition is_underscore (c : ascii) : bool := Nat.eqb (code c) 95.

(** ASCII lower-casing, for the case-insensitive words [inf] and [nan]. *)
Definition lower (c : ascii) : ascii :=
  if Nat.leb 65 (code c) && Nat.leb (code c) 90
  then ascii_of_nat (code c + 32) else c.

Fixpoint lstrip (l : list ascii) : list ascii :=
  match l with
  | c :: r => if is_space c then lstrip r else l
  | [] => []
  end.

Definition strip (l : list ascii) : list ascii :=
  rev (lstrip (rev (lstrip l))).

(** An optional sign: [true] for a leading minus. *)
Definition split_sign (l : list ascii) : bool * list ascii :=
  match l with
  | "-"%char :: r => (true, r)
  | "+"%char :: r => (false, r)
  | _ => (false, l)
  end.

(** The longest prefix of decimal digits, as its digits, and the rest. *)
Fixpoint span_digits (l : list ascii) : list ascii * list ascii :=
  match l with
  | c :: r =>
      if is_digit c
      then let '(ds, rest) := span_digits r in (c :: ds, rest)
      else ([], l)
  | [] => ([], [])
  end.

Definition digits_value (ds : list ascii) : Z :=
  fold_left (fun acc c => 10 * acc + digit_value c) ds 0.

(** *** [int(x)] in base 10 *)

(** Digits and single underscores between them, as the scan loop of
    [PyLong_FromString] accepts them; [prev] is the character before. *)
Fixpoint int_digits (prev : ascii) (l : list ascii) : option (list ascii) :=
  match l with
  | [] => if is_underscore prev then None else Some []
  | c :: r =>
      if is_underscore c then
        if is_digit prev then int_digits c r else None
      else if is_digit c then cons c <$> int_digits c r
      else None
  end.

(** [sys.get_int_max_str_digits()], the default conversion limit. *)
Definition max_str_digits : nat := 4300.

Definition int_of_string (s : string) : option Z :=
  let '(neg, body) := split_sign (strip (list_ascii_of_string s)) in
  match int_digits zero body with
  | Some (d :: ds) =>
      if Nat.ltb max_str_digits (length (d :: ds)) then None
      else let n := digits_value (d :: ds) in Some (if neg then - n else n)
  | _ => None
  end.

(** Truncation of a float toward zero, for [int] of a float. *)
Definition float_trunc (f : spec_float) : result Z :=
  match f with
  | S754_zero _ => Ok 0
  | S754_infinity _ => Raise OverflowError
  | S754_nan => Raise ValueError
  | S754_finite s m e =>
      let n := if Z.leb 0 e then Z.pos m * 2 ^ e else Z.pos m / 2 ^ (- e) in
      Ok (if s then - n else n)
  end.

Definition int (x : value) : result Z :=
  match x with
  | Int z => Ok z
  | Str s => match int_of_string s with Some z => Ok z | None => Raise ValueError end
  | Float f => float_trunc f
  | None_ => Raise TypeError
  end.

(** *** [float(x)] *)

(** Underscores are accepted only between two digits; they are removed
    before the number is read ([_Py_string_to_number_with_underscores]). *)
Fixpoint drop_underscores (prev : ascii) (l : list ascii) : option (list ascii) :=
  match l with
  | [] => if is_underscore prev then None else Some []
  | c :: r =>
      if is_underscore c then
        if is_digit prev then drop_underscores c r else None
      else if is_underscore prev && negb (is_digit c) then None
      else cons c <$> drop_underscores c r
  end.

(** The decimal [sign m * 10^e] rounded to the nearest binary64, ties to
    even; a quotient of two integers, which [SFdiv] rounds once. *)
Definition float_of_decimal (neg : bool) (m : Z) (e : Z) : spec_float :=
  let num := if Z.leb 0 e then m * 10 ^ e else m in
  let den := if Z.leb 0 e then 1 else 10 ^ (- e) in
  match num, den with
  | Z.pos n, Z.pos d =>
      SFdiv prec emax (S754_finite neg n 0) (S754_finite false d 0)
  | _, _ => S754_zero neg
  end.

(** The exponent part: [e] or [E], an optional sign, at least one digit. *)
Definition exponent_part (l : list ascii) : option Z :=
  match l with
  | [] => Some 0
  | c :: r =>
      if Ascii.eqb (lower c) "e" then
        let '(neg, body) := split_sign r in
        match span_digits body with
        | (d :: ds, []) =>
            let n := digits_value (d :: ds) in Some (if neg then - n else n)
        | _ => None
        end
      else None
  end.

Definition decimal_float (neg : bool) (l : list ascii) : option spec_float :=
  let '(ip, r1) := span_digits l in
  let '(fp, r2) :=
    match r1 with
    | "."%char :: r => span_digits r
    | _ => ([], r1)
    end in
  match ip ++ fp with
  | [] => None
  | ds =>
      e ← exponent_part r2;
      Some (float_of_decimal neg (digits_value ds) (e - Z.of_nat (length fp)))
  end.

Definition float_of_string (s : string) : option spec_float :=
  body ← drop_underscores zero (strip (list_ascii_of_string s));
  let '(neg, rest) := split_sign body in
  let word := string_of_list_ascii (map lower rest) in
  if String.eqb word "inf" || String.eqb word "infinity"
  then Some (S754_infinity neg)
  else if String.eqb word "nan" then Some S754_nan
  else decimal_float neg rest.

(** A Python integer as a float: exact when it fits, [OverflowError] when
    it is too large to be represented. *)
Definition float_of_int (z : Z) : result spec_float :=
  match binary_normalize prec emax z 0 false with
  | S754_infinity _ => Raise OverflowError
  | f => Ok f
  end.

Definition float (x : value) : result spec_float :=
  match x with
  | Float f => Ok f
  | Int z => float_of_int z
  | Str s => match float_of_string s with Some f => Ok f | None => Raise ValueError end
  | None_ => Raise TypeError
  end.

Definition float_sub (a b : spec_float) : spec_float := SFsub prec emax a b.

(** *** [str(x)]

    The text of a float (its shortest round-trip representation) is
    CPython's; it is taken as the parameter [repr_float]. *)

Definition str_of_int (z : Z) : string := NilZero.string_of_int (Z.to_int z).

Definition str (repr_float : spec_float -> string) (x : value) : string :=
  match x with
  | None_ => "None"
  | Int z => str_of_int z
  | Float f => repr_float f
  | Str s => s
  end.

(** *** Comparisons *)

(** The sign of [f - z], exactly, for a float that is not a NaN. *)
Definition float_int_compare (f : spec_float) (z : Z) : option comparison :=
  match f with
  | S754_nan => None
  | S754_infinity s => Some (if s then Lt else Gt)
  | S754_zero _ => Some (Z.compare 0 z)
  | S754_finite s m e =>
      let n := if s then Z.neg m else Z.pos m in
      Some (if Z.leb 0 e then Z.compare (n * 2 ^ e) z
            else Z.compare n (z * 2 ^ (- e)))
  end.

(** [a == b]; it never raises on these values. *)
Definition eq (a b : value) : bool :=
  match a, b with
  | None_, None_ => true
  | Int x, Int y => Z.eqb x y
  | Str x, Str y => String.eqb x y
  | Float x, Float y => SFeqb x y
  | Float x, Int y | Int y, Float x =>
      match float_int_compare x y with Some Eq => true | _ => false end
  | _, _ => false
  end.

(** [a > b]; ordering a number against [None] or a string is a
    [TypeError]. *)
Definition gt (a b : value) : result bool :=
  match a, b with
  | Int x, Int y => Ok (Z.ltb y x)
  | Float x, Float y => Ok (SFltb y x)
  | Float x, Int y =>
      Ok match float_int_compare x y with Some Gt => true | _ => false end
  | Int y, Float x =>
      Ok match float_int_compare x y with Some Lt => true | _ => false end
  | Str x, Str y => Ok (String.ltb y x)
  | _, _ => Raise TypeError
  end.

(** *** Lists and dictionaries *)

(** [l[i]]: a negative index counts from the end; an index outside the
    list is an [IndexError], an index that is not an integer a
    [TypeError]. *)
Definition getitem {A : Type} (l : list A) (i : value) : result A :=
  match i with
  | Int z =>
      let k := if Z.ltb z 0 then z + Z.of_nat (length l) else z in
      if Z.ltb k 0 then Raise IndexError
      else match nth_error l (Z.to_nat k) with
           | Some x => Ok x
           | None => Raise IndexError
           end
  | _ => Raise TypeError
  end.

(** [l.index(x)]: the first position holding a value equal to [x], a
    [ValueError] when there is none. *)
Fixpoint index_from (l : list string) (x : value) (i : Z) : result Z :=
  match l with
  | [] => Raise ValueError
  | y :: r => if eq (Str y) x then Ok i else index_from r x (i + 1)
  end.

Definition index (l : list string) (x : value) : result Z := index_from l x 0.

(** [d.get(key, default)] on a dictionary of strings. *)
Definition dict_get (d : gmap string string) (key : string) (default : value) : value :=
  match d !! key with
  | Some s => Str s
  | None => default
  end.

End Py.

Import Py.

(** ** The host: coordinator, device client and logger

    The entities read [coordinator.data], send writes through
    [client.update], ask the coordinator for a refresh and log warnings.
    A world records the coordinator's register snapshot and what has been
    requested and logged so far, in order. *)

Inductive request :=
| Update (oid value : string)
| RequestRefresh.

Record log_record := { msg : string; args : list string }.

Record world := {
  data_oids : option (gmap string string);
  requests : list request;
  warnings : list log_record
}.

(** What the host supplies and this module does not define: the text of a
    float, and the snapshot the coordinator holds once a refresh has been
    requested. *)
Class Host := {
  repr_float : spec_float -> string;
  poll : world -> option (gmap string string)
}.

(** Computations that read and extend the world and may raise. *)
Definition M (A : Type) : Type := world -> result A * world.

Definition ret {A : Type} (a : A) : M A := fun w => (Ok a, w).

Definition bind {A B : Type} (m : M A) (k : A -> M B) : M B :=
  fun w =>
    match m w with
    | (Ok a, w') => k a w'
    | (Raise e, w') => (Raise e, w')
    end.

Definition lift {A : Type} (r : result A) : M A := fun w => (r, w).

Declare Scope py_scope.
Delimit Scope py_scope with py.
Notation "x <- c1 ;; c2" := (bind c1 (fun x => c2))
  (at level 100, c1 at next level, c2 at level 200, right associativity) : py_scope.
Notation "c1 ;; c2" := (bind c1 (fun _ => c2))
  (at level 100, c2 at level 200, right associativity) : py_scope.
Local Open Scope py_scope.

(** [try: body except (caught...): handler] *)
Definition try_except {A : Type} (body : M A) (caught : list exn) (handler : M A) : M A :=
  fun w =>
    match body w with
    | (Raise e, w') =>
        if existsb (exn_eqb e) caught then handler w' else (Raise e, w')
    | r => r
    end.

(** [self.coordinator.data.get("oids")] *)
Definition coordinator_data_get_oids : M (option (gmap string string)) :=
  fun w => (Ok (data_oids w), w).

(** [self.coordinator.data.get("oids", {})] *)
Definition coordinator_data_get_oids_default : M (gmap string string) :=
  fun w => (Ok (default ∅ (data_oids w)), w).

(** [.get(key, default)] on what [data.get("oids")] returned: [None] has
    no such method. *)
Definition get_method (d : option (gmap string string)) (key : string)
    (default : value) : result value :=
  match d with
  | Some m => Ok (dict_get m key default)
  | None => Raise AttributeError
  end.

(** [await self.client.update(oid, value)] *)
Definition client_update (oid value : string) : M unit :=
  fun w => (Ok tt, {| data_oids := data_oids w;
                      requests := requests w ++ [Update oid value];
                      warnings := warnings w |}).

(** [await self.coordinator.async_request_refresh()] *)
Definition async_request_refresh `{Host} : M unit :=
  fun w =>
    let w' := {| data_oids := data_oids w;
                 requests := requests w ++ [RequestRefresh];
                 warnings := warnings w |} in
    (Ok tt, {| data_oids := poll w';
               requests := requests w';
               warnings := warnings w' |}).

(** [_LOGGER.warning(msg, *args)] *)
Definition _LOGGER_warning (msg : string) (args : list string) : M unit :=
  fun w => (Ok tt, {| data_oids := data_oids w;
                      requests := requests w;
                      warnings := warnings w ++ [{| msg := msg; args := args |}] |}).

(** [homeassistant.components.climate.const] *)
Inductive HVACAction :=
| COOLING | DEFROSTING | DRYING | FAN | HEATING | IDLE | OFF | PREHEATING.

Inductive HVACMode :=
| HVACMode_OFF | HVACMode_HEAT | HVACMode_COOL | HVACMode_HEAT_COOL
| HVACMode_AUTO | HVACMode_DRY | HVACMode_FAN_ONLY.

(** [homeassistant.const.ATTR_TEMPERATURE] *)
Definition ATTR_TEMPERATURE : string := "temperature".

(** One entry of the coordinator's device list. *)
Record device_info := {
  info_id : string;
  info_name : string;
  info_prefix : string
}.

(** ** [class WindhagerThermostatClimate] *)

Module WindhagerThermostatClimate.

Record entity := {
  _id : string;
  _name : string;
  _prefix : string;
  _preset_modes : list string
}.

Definition __init__ (deviceInfo : device_info) : entity :=
  {| _id := info_id deviceInfo;
     _name := info_name deviceInfo;
     _prefix := info_prefix deviceInfo;
     _preset_modes := ["0"; "1"; "2"; "3"; "4"; "5"; "6"; "7"] |}.

Definition unique_id (self : entity) : string := _id self.

Definition name (self : entity) : string := _name self.

Definition current_temperature (self : entity) : M value :=
  try_except
    (oids <- coordinator_data_get_oids_default;;
     a <- lift (float (dict_get oids (_prefix self +:+ "/0/0/1/0") (Str "0")));;
     oids' <- coordinator_data_get_oids_default;;
     b <- lift (float (dict_get oids' (_prefix self +:+ "/0/3/58/0") (Str "0")));;
     ret (Float (float_sub a b)))
    [ValueError; TypeError]
    (_LOGGER_warning "Invalid current temperature value for %s, setting as None."
       [_prefix self];;
     ret None_).

Definition target_temperature (self : entity) : M value :=
  try_except
    (oids <- coordinator_data_get_oids_default;;
     a <- lift (float (dict_get oids (_prefix self +:+ "/0/1/1/0") (Str "0")));;
     oids' <- coordinator_data_get_oids_default;;
     b <- lift (float (dict_get oids' (_prefix self +:+ "/0/3/58/0") (Str "0")));;
     ret (Float (float_sub a b)))
    [ValueError; TypeError]
    (_LOGGER_warning "Invalid target temperature value for %s, setting as None."
       [_prefix self];;
     ret None_).

Definition hvac_mode (self : entity) : HVACMode := HVACMode_HEAT.

Definition hvac_modes (self : entity) : list HVACMode := [HVACMode_HEAT; HVACMode_OFF].

Definition preset_modes (self : entity) : list string := _preset_modes self.

Definition raw_selected_mode (self : entity) : M value :=
  try_except
    (oids <- coordinator_data_get_oids_default;;
     n <- lift (int (dict_get oids (_prefix self +:+ "/0/3/50/0") (Int 0)));;
     ret (Int n))
    [ValueError; TypeError]
    (_LOGGER_warning "Invalid selected mode value for %s, setting as None."
       [_prefix self];;
     ret None_).

Definition raw_custom_temp_remaining_time (self : entity) : M value :=
  try_except
    (oids <- coordinator_data_get_oids_default;;
     n <- lift (int (dict_get oids (_prefix self +:+ "/0/2/10/0") (Int 0)));;
     ret (Int n))
    [ValueError; TypeError]
    (_LOGGER_warning "Invalid custom temp remaining time for %s, setting as None."
       [_prefix self];;
     ret None_).

Definition raw_preset_mode (self : entity) : M value :=
  try_except
    (oids <- coordinator_data_get_oids_default;;
     n <- lift (int (dict_get oids (_prefix self +:+ "/0/3/50/0") (Int 0)));;
     ret (Int n))
    [ValueError; TypeError]
    (_LOGGER_warning "Invalid preset mode for %s, setting as None."
       [_prefix self];;
     ret None_).

Definition hvac_action (self : entity) : M HVACAction :=
  m <- raw_preset_mode self;;
  if eq m (Int 0) then ret OFF else ret HEATING.

Definition preset_mode (self : entity) : M string :=
  t <- raw_custom_temp_remaining_time self;;
  active <- lift (gt t (Int 0));;
  if active : bool then lift (getitem (_preset_modes self) (Int 7))
  else
    m <- raw_preset_mode self;;
    lift (getitem (_preset_modes self) m).

Section Commands.
Context `{Host}.

Definition async_set_hvac_mode (self : entity) (hvac_mode : HVACMode) : M unit :=
  ret tt.

Definition async_set_preset_mode (self : entity) (preset_mode : value) : M unit :=
  id_mode <- lift (index (_preset_modes self) preset_mode);;
  client_update (_prefix self +:+ "/0/3/50/0") (str repr_float (Int id_mode));;
  t <- raw_custom_temp_remaining_time self;;
  active <- lift (gt t (Int 0));;
  (if active : bool
   then client_update (_prefix self +:+ "/0/2/10/0") "0"
   else ret tt);;
  async_request_refresh.

Definition async_set_temperature (self : entity) (kwargs : gmap string value) : M unit :=
  client_update (_prefix self +:+ "/0/3/4/0")
    (str repr_float (default None_ (kwargs !! ATTR_TEMPERATURE)));;
  client_update (_prefix self +:+ "/0/2/10/0") "400";;
  async_request_refresh.

Definition set_current_temp_compensation (self : entity) (compensation : value) : M unit :=
  client_update (_prefix self +:+ "/0/3/58/0") (str repr_float compensation);;
  async_request_refresh.
End Commands.

End WindhagerThermostatClimate.

(** ** [class WindhagerThermostatClimateWithoutBias] *)

Module WindhagerThermostatClimateWithoutBias.

Record entity := {
  _id : string;
  _name : string;
  _prefix : string;
  _preset_modes : list string
}.

Definition __init__ (deviceInfo : device_info) : entity :=
  {| _id := info_id deviceInfo +:+ "_nobias";
     _name := info_name deviceInfo +:+ " without bias";
     _prefix := info_prefix deviceInfo;
     _preset_modes := ["0"; "1"; "2"; "3"; "4"; "5"; "6"; "7"] |}.

Definition unique_id (self : entity) : string := _id self.

Definition name (self : entity) : string := _name self.

Definition current_temperature (self : entity) : M value :=
  try_except
    (oids <- coordinator_data_get_oids;;
     v <- lift (get_method oids (_prefix self +:+ "/0/0/1/0") (Str "0"));;
     a <- lift (float v);;
     ret (Float a))
    [ValueError; TypeError]
    (_LOGGER_warning "Invalid current temperature value for %s, setting as None."
       [_prefix self];;
     ret None_).

Definition target_temperature (self : entity) : M value :=
  try_except
    (oids <- coordinator_data_get_oids;;
     v <- lift (get_method oids (_prefix self +:+ "/0/1/1/0") None_);;
     a <- lift (float v);;
     ret (Float a))
    [ValueError; TypeError]
    (_LOGGER_warning "Invalid target temperature value for %s, setting as None."
       [_prefix self];;
     ret None_).

Definition hvac_mode (self : entity) : HVACMode := HVACMode_HEAT.

Definition hvac_modes (self : entity) : list HVACMode := [HVACMode_HEAT; HVACMode_OFF].

Definition preset_modes (self : entity) : list string := _preset_modes self.

Definition raw_selected_mode (self : entity) : M value :=
  try_except
    (oids <- coordinator_data_get_oids_default;;
     n <- lift (int (dict_get oids (_prefix self +:+ "/0/3/50/0") (Int 0)));;
     ret (Int n))
    [ValueError; TypeError]
    (_LOGGER_warning "Invalid selected mode value for %s, setting as None."
       [_prefix self];;
     ret None_).

Definition raw_custom_temp_remaining_time (self : entity) : M value :=
  try_except
    (oids <- coordinator_data_get_oids_default;;
     n <- lift (int (dict_get oids (_prefix self +:+ "/0/2/10/0") (Int 0)));;
     ret (Int n))
    [ValueError; TypeError]
    (_LOGGER_warning "Invalid custom temp remaining time for %s, setting as None."
       [_prefix self];;
     ret None_).

Definition raw_preset_mode (self : entity) : M value :=
  try_except
    (oids <- coordinator_data_get_oids_default;;
     n <- lift (int (dict_get oids (_prefix self +:+ "/0/3/50/0") (Int 0)));;
     ret (Int n))
    [ValueError; TypeError]
    (_LOGGER_warning "Invalid preset mode for %s, setting as None."
       [_prefix self];;
     ret None_).

Definition hvac_action (self : entity) : M HVACAction :=
  m <- raw_preset_mode self;;
  if eq m (Int 0) then ret OFF else ret HEATING.

Definition preset_mode (self : entity) : M string :=
  t <- raw_custom_temp_remaining_time self;;
  active <- lift (gt t (Int 0));;
  if active : bool then lift (getitem (_preset_modes self) (Int 7))
  else
    m <- raw_preset_mode self;;
    lift (getitem (_preset_modes self) m).

Section Commands.
Context `{Host}.

Definition async_set_hvac_mode (self : entity) (hvac_mode : HVACMode) : M unit :=
  ret tt.

Definition async_set_preset_mode (self : entity) (preset_mode : value) : M unit :=
  id_mode <- lift (index (_preset_modes self) preset_mode);;
  client_update (_prefix self +:+ "/0/3/50/0") (str repr_float (Int id_mode));;
  t <- raw_custom_temp_remaining_time self;;
  active <- lift (gt t (Int 0));;
  (if active : bool
   then client_update (_prefix self +:+ "/0/2/10/0") "0"
   else ret tt);;
  async_request_refresh.

Definition async_set_temperature (self : entity) (kwargs : gmap string value) : M unit :=
  client_update (_prefix self +:+ "/0/3/4/0")
    (str repr_float (default None_ (kwargs !! ATTR_TEMPERATURE)));;
  client_update (_prefix self +:+ "/0/2/10/0") "400";;
  async_request_refresh.
End Commands.

End WindhagerThermostatClimateWithoutBias.

(** ** The platform: both entities of a device, and entity services

    [async_setup_entry] registers the entity service
    [set_current_temp_compensation] and adds, for every climate device, one
    entity of each class.  A service call looks the method up by name on the
    entity it targets; the table below lists the commands each class body
    defines. *)

Inductive climate_entity :=
| WithBias (self : WindhagerThermostatClimate.entity)
| WithoutBias (self : WindhagerThermostatClimateWithoutBias.entity).

Definition entities_of (deviceInfo : device_info) : list climate_entity :=
  [WithBias (WindhagerThermostatClimate.__init__ deviceInfo);
   WithoutBias (WindhagerThermostatClimateWithoutBias.__init__ deviceInfo)].

(** The arguments of a command, as the host passes them. *)
Inductive call_args :=
| HvacModeArg (hvac_mode : HVACMode)
| PresetModeArg (preset_mode : value)
| Kwargs (kwargs : gmap string value)
| CompensationArg (compensation : value).

Section Platform.
Context `{Host}.

Definition commands (e : climate_entity) : list (string * (call_args -> M unit)) :=
  match e with
  | WithBias self =>
      [("async_set_hvac_mode",
        fun a => match a with
                 | HvacModeArg m => WindhagerThermostatClimate.async_set_hvac_mode self m
                 | _ => lift (Raise TypeError)
                 end);
       ("async_set_preset_mode",
        fun a => match a with
                 | PresetModeArg p => WindhagerThermostatClimate.async_set_preset_mode self p
                 | _ => lift (Raise TypeError)
                 end);
       ("async_set_temperature",
        fun a => match a with
                 | Kwargs k => WindhagerThermostatClimate.async_set_temperature self k
                 | _ => lift (Raise TypeError)
                 end);
       ("set_current_temp_compensation",
        fun a => match a with
                 | CompensationArg c =>
                     WindhagerThermostatClimate.set_current_temp_compensation self c
                 | _ => lift (Raise TypeError)
                 end)]
  | WithoutBias self =>
      [("async_set_hvac_mode",
        fun a => match a with
                 | HvacModeArg m => WindhagerThermostatClimateWithoutBias.async_set_hvac_mode self m
                 | _ => lift (Raise TypeError)
                 end);
       ("async_set_preset_mode",
        fun a => match a with
                 | PresetModeArg p => WindhagerThermostatClimateWithoutBias.async_set_preset_mode self p
                 | _ => lift (Raise TypeError)
                 end);
       ("async_set_temperature",
        fun a => match a with
                 | Kwargs k => WindhagerThermostatClimateWithoutBias.async_set_temperature self k
                 | _ => lift (Raise TypeError)
                 end)]
  end.

Definition command_names (e : climate_entity) : list string :=
  map fst (commands e).

Fixpoint lookup_command (name : string) (table : list (string * (call_args -> M unit)))
    : option (call_args -> M unit) :=
  match table with
  | [] => None
  | (n, f) :: rest => if String.eqb n name then Some f else lookup_command name rest
  end.

(** [getattr(entity, name)(...)]: a name the class does not define is an
    [AttributeError] before anything is sent. *)
Definition call_service (e : climate_entity) (name : string) (a : call_args) : M unit :=
  match lookup_command name (commands e) with
  | Some f => f a
  | None => lift (Raise AttributeError)
  end.
End Platform.

(** [async_setup_entry]: one entry of [data_coordinator.data.get("devices")]
    with what [deviceInfo.get("type")] gives ([None] when the key is
    missing).  Every entry whose type equals ["climate"] contributes its
    entity with bias and then its entity without bias, in the order of the
    device list; [async_add_entities] receives the result. *)
Record device_entry := {
  entry_type : value;
  entry_info : device_info
}.

Definition async_setup_entry (devices : list device_entry) : list climate_entity :=
  flat_map
    (fun deviceInfo =>
       if eq (entry_type deviceInfo) (Str "climate")
       then entities_of (entry_info deviceInfo)
       else [])
    devices.

Definition entity_unique_id (e : climate_entity) : string :=
  match e with
  | WithBias self => WindhagerThermostatClimate.unique_id self
  | WithoutBias self => WindhagerThermostatClimateWithoutBias.unique_id self
  end.

(** ** Vocabulary of the statements *)

Module B := WindhagerThermostatClimate.
Module U := WindhagerThermostatClimateWithoutBias.

(** The registers of one device, by the role the entities give them. *)
Definition current_register (prefix : string) : string := prefix +:+ "/0/0/1/0".
Definition target_register (prefix : string) : string := prefix +:+ "/0/1/1/0".
Definition bias_register (prefix : string) : string := prefix +:+ "/0/3/58/0".
Definition mode_register (prefix : string) : string := prefix +:+ "/0/3/50/0".
Definition override_register (prefix : string) : string := prefix +:+ "/0/2/10/0".
Definition setpoint_write_register (prefix : string) : string := prefix +:+ "/0/3/4/0".

(** The fixed label set both constructors install. *)
Definition preset_labels : list string := ["0"; "1"; "2"; "3"; "4"; "5"; "6"; "7"].

(** A label of the fixed set, as the command receives it. *)
Definition known_label (l : value) : Prop :=
  exists s, l = Str s /\ In s preset_labels.

(** A world whose coordinator holds the register store [st]. *)
Definition world_of (st : gmap string string) (rq : list request)
    (ws : list log_record) : world :=
  {| data_oids := Some st; requests := rq; warnings := ws |}.

(** [w'] is [w] with the requests [rs] issued after those of [w]; the
    snapshot may have been refreshed. *)
Definition issued (w w' : world) (rs : list request) : Prop :=
  requests w' = requests w ++ rs /\ warnings w' = warnings w.

(** [w'] is [w] with exactly one more warning and nothing else changed. *)
Definition with_warning (w : world) (r : log_record) : world :=
  {| data_oids := data_oids w;
     requests := requests w;
     warnings := warnings w ++ [r] |}.

Definition warned_once (w w' : world) : Prop :=
  exists r, w' = with_warning w r.

(** The store an accessor with the [{}] default reads. *)
Definition oids_of (w : world) : gmap string string := default ∅ (data_oids w).

(** A reading that fails soft: a value and an untouched world, or the
    absent value and one warning; never an exception. *)
Definition fail_soft (m : M value) (w : world) : Prop :=
  exists v w', m w = (Ok v, w') /\
    ((v <> None_ /\ w' = w) \/ (v = None_ /\ warned_once w w')).

Definition returns_absent (m : M value) (w : world) : Prop :=
  exists w', m w = (Ok None_, w') /\ warned_once w w'.

(** Text made of ASCII characters only, the range on which the parsers of
    [Py] are CPython's. *)
Definition ascii_char (c : ascii) : bool := Nat.ltb (code c) 128.

Definition is_ascii_text (s : string) : bool :=
  forallb ascii_char (list_ascii_of_string s).

(** The register, when the store holds it, holds ASCII text. *)
Definition ascii_register (st : gmap string string) (key : string) : Prop :=
  forall s, st !! key = Some s -> is_ascii_text s = true.

(** The register holds ASCII text that [float] (resp. [int]) rejects. *)
Definition malformed_float (st : gmap string string) (key : string) : Prop :=
  exists s, st !! key = Some s /\ is_ascii_text s = true /\ float_of_string s = None.

Definition malformed_int (st : gmap string string) (key : string) : Prop :=
  exists s, st !! key = Some s /\ is_ascii_text s = true /\ int_of_string s = None.

(** A sequence of preset selections on one entity; a selection that fails
    is reported to its caller and the next one still runs. *)
Section Sequences.
Context `{Host}.

Fixpoint run_presets (self : B.entity) (labels : list value) (w : world) : world :=
  match labels with
  | [] => w
  | l :: rest => run_presets self rest (snd (B.async_set_preset_mode self l w))
  end.

Fixpoint run_presets_nobias (self : U.entity) (labels : list value) (w : world) : world :=
  match labels with
  | [] => w
  | l :: rest => run_presets_nobias self rest (snd (U.async_set_preset_mode self l w))
  end.
End Sequences.

(** A host whose device keeps its registers: a refresh reads back the
    snapshot already held.  Floats are printed by a stand-in. *)
Definition still_host : Host :=
  {| repr_float := fun _ => "<float>"; poll := fun w => data_oids w |}.

Definition heating_circuit : device_info :=
  {| info_id := "hk1"; info_name := "Living room"; info_prefix := "/1/15" |}.

(** Register stores of that device used as concrete inputs. *)
Definition override_running : gmap string string :=
  {[ "/1/15/0/3/50/0" := "abc"; "/1/15/0/2/10/0" := "120" ]}.

Definition comfort_mode : gmap string string :=
  {[ "/1/15/0/3/50/0" := "3"; "/1/15/0/2/10/0" := "0" ]}.

Definition garbled_override : gmap string string :=
  {[ "/1/15/0/2/10/0" := "abc" ]}.

Definition garbled_setpoint : gmap string string :=
  {[ "/1/15/0/0/1/0" := "21.5"; "/1/15/0/1/1/0" := "abc" ]}.

Definition biased_room : gmap string string :=
  {[ "/1/15/0/0/1/0" := "21.5"; "/1/15/0/1/1/0" := "22"; "/1/15/0/3/58/0" := "1.0" ]}.

Definition unbiased_room : gmap string string :=
  {[ "/1/15/0/0/1/0" := "21.5"; "/1/15/0/1/1/0" := "22" ]}.

Definition no_current_register : gmap string string :=
  {[ "/1/15/0/1/1/0" := "22"; "/1/15/0/3/58/0" := "1.0" ]}.

(** *** Vocabulary of the further properties *)

(** The climate devices of a device list, as [async_setup_entry] selects
    them. *)
Definition climate_devices (devices : list device_entry) : list device_info :=
  map entry_info
    (List.filter (fun d => eq (entry_type d) (Str "climate")) devices).

(** What a reading returns and what it has logged. *)
Definition outcome {A : Type} (m : M A) (w : world) : result A * list log_record :=
  (fst (m w), warnings (snd (m w))).

(** [w'] differs from [w] by warnings at most. *)
Definition same_device (w w' : world) : Prop :=
  data_oids w' = data_oids w /\ requests w' = requests w.

(** A device whose registers change by the writes it receives and by
    nothing else: a refresh reads back the snapshot with every write
    applied, in order. *)
Fixpoint apply_updates (rs : list request) (st : gmap string string)
    : gmap string string :=
  match rs with
  | [] => st
  | Update oid v :: rest => apply_updates rest (<[oid := v]> st)
  | RequestRefresh :: rest => apply_updates rest st
  end.

Definition echoes `{Host} : Prop :=
  forall w, poll w = Some (apply_updates (requests w) (oids_of w)).

Definition echo_host : Host :=
  {| repr_float := fun _ => "<float>";
     poll := fun w => Some (apply_updates (requests w) (oids_of w)) |}.

Definition boiler_room : list device_entry :=
  [{| entry_type := Str "climate"; entry_info := heating_circuit |};
   {| entry_type := Str "sensor";
      entry_info := {| info_id := "boiler"; info_name := "Boiler"; info_prefix := "/1/60" |} |};
   {| entry_type := None_;
      entry_info := {| info_id := "x"; info_name := "Unknown"; info_prefix := "/1/61" |} |};
   {| entry_type := Str "climate";
      entry_info := {| info_id := "hk2"; info_name := "Bath"; info_prefix := "/1/16" |} |}].

Definition mode_minus_one : gmap string string := {[ "/1/15/0/3/50/0" := "-1" ]}.

Definition mode_nine : gmap string string := {[ "/1/15/0/3/50/0" := "9" ]}.

(** ** Basic facts about the builtins *)

Lemma append_inv_head (p a b : string) : p +:+ a = p +:+ b -> a = b.
Proof.
  induction p as [|c p IH]; simpl; intros E; [exact E|].
  injection E as E. auto.
Qed.

Lemma eq_Str_spec (y : string) (x : value) : eq (Str y) x = true <-> x = Str y.
Proof.
  destruct x; simpl; split; intros E; try discriminate.
  - apply String.eqb_eq in E. now subst.
  - injection E as ->. apply String.eqb_refl.
Qed.

Lemma index_from_absent (l : list string) (x : value) (i : Z) :
  (forall s, In s l -> x <> Str s) -> index_from l x i = Raise ValueError.
Proof.
  revert i. induction l as [|y l IH]; intros i Hx; cbn [index_from]; [reflexivity|].
  destruct (eq (Str y) x) eqn:E.
  - apply eq_Str_spec in E. exfalso. apply (Hx y); [now left | exact E].
  - apply IH. intros s Hs. apply Hx. now right.
Qed.

(** Looking a label of the fixed set up and printing its index gives the
    label back. *)
Lemma index_of_label (s : string) :
  In s preset_labels ->
  exists i, index preset_labels (Str s) = Ok i /\ str_of_int i = s /\ 0 <= i <= 7.
Proof.
  unfold preset_labels. simpl. intros Hs.
  repeat (destruct Hs as [<- | Hs]; [eexists; repeat split; try reflexivity; lia |]).
  contradiction.
Qed.

(** [int] of a register reading never raises anything but [ValueError],
    and only on text it rejects. *)
Lemma int_reading_cases (st : gmap string string) (key : string) :
  (exists n, int (dict_get st key (Int 0)) = Ok n) \/
  (int (dict_get st key (Int 0)) = Raise ValueError /\ is_Some (st !! key)).
Proof.
  unfold dict_get. destruct (st !! key) as [s|] eqn:E; simpl.
  - destruct (int_of_string s) eqn:P; [left | right]; eauto.
  - left. eauto.
Qed.

Lemma malformed_int_raises (st : gmap string string) (key : string) :
  malformed_int st key -> int (dict_get st key (Int 0)) = Raise ValueError.
Proof.
  intros (s & E & _ & P). unfold dict_get. rewrite E. simpl. now rewrite P.
Qed.

(** ** The parsers accept ASCII text only *)

Lemma is_ascii_text_spec (s : string) :
  is_ascii_text s = true <-> forall c, In c (list_ascii_of_string s) -> ascii_char c = true.
Proof. unfold is_ascii_text. apply forallb_forall. Qed.

Lemma is_space_ascii (c : ascii) : is_space c = true -> ascii_char c = true.
Proof.
  unfold is_space, ascii_char. intros H. apply Nat.ltb_lt.
  apply orb_true_iff in H as [H | H].
  - apply andb_true_iff in H as [_ H]. apply Nat.leb_le in H. lia.
  - apply Nat.eqb_eq in H. lia.
Qed.

Lemma is_digit_ascii (c : ascii) : is_digit c = true -> ascii_char c = true.
Proof.
  unfold is_digit, ascii_char. intros H. apply Nat.ltb_lt.
  apply andb_true_iff in H as [_ H]. apply Nat.leb_le in H. lia.
Qed.

Lemma is_underscore_ascii (c : ascii) : is_underscore c = true -> ascii_char c = true.
Proof.
  unfold is_underscore, ascii_char. intros H. apply Nat.ltb_lt.
  apply Nat.eqb_eq in H. lia.
Qed.

Lemma lower_ascii (c : ascii) : ascii_char (lower c) = true -> ascii_char c = true.
Proof.
  unfold lower. destruct (Nat.leb 65 (code c) && Nat.leb (code c) 90) eqn:E; [|auto].
  intros _. apply andb_true_iff in E as [_ E]. apply Nat.leb_le in E.
  unfold ascii_char. apply Nat.ltb_lt. lia.
Qed.

Lemma lstrip_in (l : list ascii) (c : ascii) :
  In c l -> In c (lstrip l) \/ is_space c = true.
Proof.
  induction l as [|d l IH]; [intros []|]. cbn [lstrip].
  destruct (is_space d) eqn:E; [|now left].
  intros [<- | H]; [now right | now apply IH].
Qed.

Lemma strip_in (l : list ascii) (c : ascii) :
  In c l -> In c (strip l) \/ is_space c = true.
Proof.
  intros H. destruct (lstrip_in l c H) as [H1 | H1]; [|now right].
  apply in_rev in H1. destruct (lstrip_in _ c H1) as [H2 | H2]; [|now right].
  left. unfold strip. now apply in_rev in H2.
Qed.

Lemma split_sign_in (l body : list ascii) (neg : bool) (c : ascii) :
  split_sign l = (neg, body) -> In c l -> In c body \/ ascii_char c = true.
Proof.
  destruct l as [|d r]; [intros _ []|].
  assert (Hc : split_sign (d :: r) = (neg, body) ->
               body = d :: r \/ (body = r /\ ascii_char d = true)).
  { destruct d as [[] [] [] [] [] [] [] []]; cbn; intros [= <- <-]; auto. }
  intros E H. destruct (Hc E) as [-> | [-> Hd]]; [now left|].
  destruct H as [<- | H]; [now right | now left].
Qed.

Lemma int_digits_in (l ds : list ascii) (prev c : ascii) :
  int_digits prev l = Some ds -> In c l -> ascii_char c = true.
Proof.
  revert prev ds. induction l as [|d l IH]; intros prev ds E; [intros []|].
  cbn [int_digits] in E. intros [<- | H].
  - destruct (is_underscore d) eqn:U; [now apply is_underscore_ascii|].
    destruct (is_digit d) eqn:D; [now apply is_digit_ascii | discriminate E].
  - destruct (is_underscore d).
    + destruct (is_digit prev); [eapply IH; eauto | discriminate E].
    + destruct (is_digit d); [|discriminate E].
      destruct (int_digits d l) eqn:E'; [eapply IH; eauto | discriminate E].
Qed.

(** Text that [int] accepts is ASCII. *)
Lemma int_of_string_ascii (s : string) (z : Z) :
  int_of_string s = Some z -> is_ascii_text s = true.
Proof.
  unfold int_of_string. intros E. apply is_ascii_text_spec. intros c Hc.
  destruct (strip_in _ c Hc) as [H1 | H1]; [|now apply is_space_ascii].
  destruct (split_sign (strip (list_ascii_of_string s))) as [neg body] eqn:Es.
  destruct (split_sign_in _ _ _ c Es H1) as [H2 | H2]; [|exact H2].
  destruct (int_digits zero body) as [ds|] eqn:Ed; [|discriminate E].
  eapply int_digits_in; eauto.
Qed.

Lemma drop_underscores_in (l body : list ascii) (prev c : ascii) :
  drop_underscores prev l = Some body -> In c l -> In c body \/ ascii_char c = true.
Proof.
  revert prev body. induction l as [|d l IH]; intros prev body E; [intros []|].
  cbn [drop_underscores] in E. destruct (is_underscore d) eqn:U.
  - intros [<- | H]; [right; now apply is_underscore_ascii|].
    destruct (is_digit prev); [eapply IH; eauto | discriminate E].
  - destruct (is_underscore prev && negb (is_digit d)); [discriminate E|].
    destruct (drop_underscores d l) as [b|] eqn:E'; [|discriminate E].
    injection E as <-. intros [<- | H]; [left; now left|].
    destruct (IH _ _ E' H) as [G | G]; [left; now right | now right].
Qed.

Lemma span_digits_in (l ds rest : list ascii) (c : ascii) :
  span_digits l = (ds, rest) ->
  (In c l -> In c rest \/ ascii_char c = true) /\
  (In c ds -> ascii_char c = true).
Proof.
  revert ds rest. induction l as [|d l IH]; intros ds rest E; cbn [span_digits] in E.
  - injection E as <- <-. split; intros [].
  - destruct (is_digit d) eqn:D.
    + destruct (span_digits l) as [ds' rest'] eqn:E'. injection E as <- <-.
      destruct (IH _ _ eq_refl) as [I1 I2]. split.
      * intros [<- | H]; [right; now apply is_digit_ascii | now apply I1].
      * intros [<- | H]; [now apply is_digit_ascii | now apply I2].
    + injection E as <- <-. split; [now left | intros []].
Qed.

Lemma exponent_part_in (l : list ascii) (e : Z) (c : ascii) :
  exponent_part l = Some e -> In c l -> ascii_char c = true.
Proof.
  destruct l as [|d r]; [intros _ []|]. cbn [exponent_part].
  destruct (Ascii.eqb (lower d) "e") eqn:Ee; [|discriminate].
  destruct (split_sign r) as [neg body] eqn:Es.
  destruct (span_digits body) as [ds rest] eqn:Ed.
  intros E [<- | H].
  - apply lower_ascii. apply Ascii.eqb_eq in Ee. now rewrite Ee.
  - destruct (split_sign_in _ _ _ c Es H) as [H1 | H1]; [|exact H1].
    destruct ds as [|d0 ds]; [discriminate E|].
    destruct rest; [|discriminate E].
    destruct (span_digits_in _ _ _ c Ed) as [I1 _].
    destruct (I1 H1) as [[] | G]. exact G.
Qed.

Lemma decimal_float_in (neg : bool) (l : list ascii) (f : spec_float) (c : ascii) :
  decimal_float neg l = Some f -> In c l -> ascii_char c = true.
Proof.
  unfold decimal_float. destruct (span_digits l) as [ip r1] eqn:E1.
  destruct (span_digits_in _ _ _ c E1) as [I1 _].
  intros E H. destruct (I1 H) as [H1 | H1]; [|exact H1]. clear I1 H.
  assert (G : forall fp r2,
    (In c r1 -> In c r2 \/ ascii_char c = true) ->
    match ip ++ fp with
    | [] => None
    | ds => e ← exponent_part r2;
            Some (float_of_decimal neg (digits_value ds) (e - Z.of_nat (length fp)))
    end = Some f -> ascii_char c = true).
  { intros fp r2 Hr Ef. destruct (Hr H1) as [H2 | H2]; [|exact H2].
    destruct (ip ++ fp); [discriminate Ef|].
    destruct (exponent_part r2) as [e|] eqn:Ee; [|discriminate Ef].
    eapply exponent_part_in; eauto. }
  destruct r1 as [|d r]; [destruct H1|].
  assert (Hd : (exists fp r2, d = "."%char /\ span_digits r = (fp, r2) /\
                  match (if Ascii.eqb d "." then span_digits r else ([], d :: r)) with
                  | (fp', r2') => fp' = fp /\ r2' = r2 end) \/
               (Ascii.eqb d "." = false)).
  { destruct (Ascii.eqb d ".") eqn:Ed; [|now right].
    apply Ascii.eqb_eq in Ed. left. destruct (span_digits r) as [fp r2] eqn:E2.
    exists fp, r2. auto. }
  assert (Hm : (let '(fp, r2) :=
                  match d :: r with
                  | "."%char :: r' => span_digits r'
                  | _ => ([], d :: r)
                  end in (fp, r2))
               = (if Ascii.eqb d "." then span_digits r else ([], d :: r))).
  { destruct d as [[] [] [] [] [] [] [] []]; cbn; try reflexivity;
      destruct (span_digits r); reflexivity. }
  destruct (match d :: r with
            | "."%char :: r' => span_digits r'
            | _ => ([], d :: r)
            end) as [fp r2] eqn:Em.
  cbn in Hm. destruct Hd as [(fp' & r2' & -> & E2 & _) | Ed].
  - cbn in Hm. rewrite E2 in Hm. injection Hm as -> ->.
    apply (G fp' r2'); [|exact E].
    intros [<- | Hr]; [right; reflexivity|].
    destruct (span_digits_in _ _ _ c E2) as [I2 _]. now apply I2.
  - rewrite Ed in Hm. injection Hm as -> ->.
    apply (G [] (d :: r)); [now left | exact E].
Qed.

(** Text that [float] accepts is ASCII. *)
Lemma float_of_string_ascii (s : string) (f : spec_float) :
  float_of_string s = Some f -> is_ascii_text s = true.
Proof.
  unfold float_of_string. intros E. apply is_ascii_text_spec. intros c Hc.
  destruct (strip_in _ c Hc) as [H1 | H1]; [|now apply is_space_ascii].
  destruct (drop_underscores zero (strip (list_ascii_of_string s))) as [body|] eqn:Eb;
    [|discriminate E].
  destruct (drop_underscores_in _ _ _ c Eb H1) as [H2 | H2]; [|exact H2].
  cbn in E. destruct (split_sign body) as [neg rest] eqn:Es.
  destruct (split_sign_in _ _ _ c Es H2) as [H3 | H3]; [|exact H3].
  assert (W : forall word, String.eqb (string_of_list_ascii (map lower rest)) word = true ->
                (forall d, In d (list_ascii_of_string word) -> ascii_char d = true) ->
                ascii_char c = true).
  { intros word Ew Hw. apply String.eqb_eq in Ew.
    apply lower_ascii, Hw. rewrite <- Ew, list_ascii_of_string_of_list_ascii.
    now apply in_map. }
  destruct (String.eqb (string_of_list_ascii (map lower rest)) "inf") eqn:E1.
  { apply (W "inf" E1). intros d Hd. cbn in Hd. intuition (subst; reflexivity). }
  destruct (String.eqb (string_of_list_ascii (map lower rest)) "infinity") eqn:E2.
  { apply (W "infinity" E2). intros d Hd. cbn in Hd. intuition (subst; reflexivity). }
  cbn [orb] in E.
  destruct (String.eqb (string_of_list_ascii (map lower rest)) "nan") eqn:E3.
  { apply (W "nan" E3). intros d Hd. cbn in Hd. intuition (subst; reflexivity). }
  eapply decimal_float_in; eauto.
Qed.

(** ** The raw accessors, run *)

Ltac run_monad :=
  unfold try_except, bind, lift, ret, coordinator_data_get_oids_default,
    coordinator_data_get_oids, _LOGGER_warning, client_update,
    async_request_refresh; cbn [fst snd data_oids requests warnings].

(** The common shape of [raw_selected_mode], [raw_custom_temp_remaining_time]
    and [raw_preset_mode]: the integer read, or the absent value and one
    warning. *)
Lemma try_int_reading (key m : string) (a : list string) (w : world) :
  try_except
    (oids <- coordinator_data_get_oids_default;;
     n <- lift (int (dict_get oids key (Int 0)));;
     ret (Int n))
    [ValueError; TypeError]
    (_LOGGER_warning m a;; ret None_) w
  = match int (dict_get (oids_of w) key (Int 0)) with
    | Ok n => (Ok (Int n), w)
    | Raise _ => (Ok None_, with_warning w {| msg := m; args := a |})
    end.
Proof.
  run_monad. unfold oids_of.
  destruct (int_reading_cases (default ∅ (data_oids w)) key) as [[n E] | [E _]];
    rewrite E; reflexivity.
Qed.

Lemma raw_custom_temp_remaining_time_run (self : B.entity) (w : world) :
  B.raw_custom_temp_remaining_time self w
  = match int (dict_get (oids_of w) (override_register (B._prefix self)) (Int 0)) with
    | Ok n => (Ok (Int n), w)
    | Raise _ =>
        (Ok None_,
         with_warning w
           {| msg := "Invalid custom temp remaining time for %s, setting as None.";
              args := [B._prefix self] |})
    end.
Proof. apply try_int_reading. Qed.

Lemma raw_preset_mode_run (self : B.entity) (w : world) :
  B.raw_preset_mode self w
  = match int (dict_get (oids_of w) (mode_register (B._prefix self)) (Int 0)) with
    | Ok n => (Ok (Int n), w)
    | Raise _ =>
        (Ok None_,
         with_warning w
           {| msg := "Invalid preset mode for %s, setting as None.";
              args := [B._prefix self] |})
    end.
Proof. apply try_int_reading. Qed.

Lemma raw_selected_mode_run (self : B.entity) (w : world) :
  B.raw_selected_mode self w
  = match int (dict_get (oids_of w) (mode_register (B._prefix self)) (Int 0)) with
    | Ok n => (Ok (Int n), w)
    | Raise _ =>
        (Ok None_,
         with_warning w
           {| msg := "Invalid selected mode value for %s, setting as None.";
              args := [B._prefix self] |})
    end.
Proof. apply try_int_reading. Qed.

Lemma nobias_raw_custom_temp_remaining_time_run (self : U.entity) (w : world) :
  U.raw_custom_temp_remaining_time self w
  = match int (dict_get (oids_of w) (override_register (U._prefix self)) (Int 0)) with
    | Ok n => (Ok (Int n), w)
    | Raise _ =>
        (Ok None_,
         with_warning w
           {| msg := "Invalid custom temp remaining time for %s, setting as None.";
              args := [U._prefix self] |})
    end.
Proof. apply try_int_reading. Qed.

Lemma nobias_raw_preset_mode_run (self : U.entity) (w : world) :
  U.raw_preset_mode self w
  = match int (dict_get (oids_of w) (mode_register (U._prefix self)) (Int 0)) with
    | Ok n => (Ok (Int n), w)
    | Raise _ =>
        (Ok None_,
         with_warning w
           {| msg := "Invalid preset mode for %s, setting as None.";
              args := [U._prefix self] |})
    end.
Proof. apply try_int_reading. Qed.

Lemma nobias_raw_selected_mode_run (self : U.entity) (w : world) :
  U.raw_selected_mode self w
  = match int (dict_get (oids_of w) (mode_register (U._prefix self)) (Int 0)) with
    | Ok n => (Ok (Int n), w)
    | Raise _ =>
        (Ok None_,
         with_warning w
           {| msg := "Invalid selected mode value for %s, setting as None.";
              args := [U._prefix self] |})
    end.
Proof. apply try_int_reading. Qed.

(** ** Commands *)

(** C9. Whatever hvac mode is asked for, [async_set_hvac_mode] of either
    class returns normally and leaves the world as it was: no register
    write, no refresh request, the register store unchanged. *)
Theorem set_hvac_mode_is_noop (b : B.entity) (u : U.entity) (mode : HVACMode) (w : world) :
  B.async_set_hvac_mode b mode w = (Ok tt, w) /\
  U.async_set_hvac_mode u mode w = (Ok tt, w).
Proof. split; reflexivity. Qed.

(** C5. For every temperature value [v], [async_set_temperature] of either
    class returns normally having issued exactly three requests, in this
    order: the write of [str(v)] to the setpoint register [prefix/0/3/4/0],
    the write of ["400"] to the override register [prefix/0/2/10/0], and the
    refresh request; the ["400"] write depends on nothing. *)
Theorem set_temperature_requests `{Host} (info : device_info) (v : value) (w : world) :
  (exists w',
     B.async_set_temperature (B.__init__ info) {[ATTR_TEMPERATURE := v]} w = (Ok tt, w') /\
     issued w w'
       [Update (setpoint_write_register (info_prefix info)) (str repr_float v);
        Update (override_register (info_prefix info)) "400";
        RequestRefresh]) /\
  (exists w',
     U.async_set_temperature (U.__init__ info) {[ATTR_TEMPERATURE := v]} w = (Ok tt, w') /\
     issued w w'
       [Update (setpoint_write_register (info_prefix info)) (str repr_float v);
        Update (override_register (info_prefix info)) "400";
        RequestRefresh]).
Proof.
  split; eexists; (split; [reflexivity|]); unfold issued; run_monad;
    rewrite lookup_singleton_eq; cbn [default];
    rewrite <- !app_assoc; split; reflexivity.
Qed.

(** C6. For every label outside the fixed eight-label set,
    [async_set_preset_mode] of either class raises [ValueError] and leaves
    the world as it was: no register write and no refresh request reach the
    device. *)
Theorem set_preset_unknown_label `{Host} (info : device_info) (label : value) (w : world) :
  (forall s, In s preset_labels -> label <> Str s) ->
  B.async_set_preset_mode (B.__init__ info) label w = (Raise ValueError, w) /\
  U.async_set_preset_mode (U.__init__ info) label w = (Raise ValueError, w).
Proof.
  intros Hout.
  assert (E : index preset_labels label = Raise ValueError)
    by (apply index_from_absent; exact Hout).
  split; unfold B.async_set_preset_mode, U.async_set_preset_mode; run_monad;
    cbn [B.__init__ U.__init__ B._preset_modes U._preset_modes];
    fold preset_labels; rewrite E; reflexivity.
Qed.

Lemma set_preset_unknown_label_witness :
  B.async_set_preset_mode (H := still_host) (B.__init__ heating_circuit) (Str "9")
    (world_of ∅ [] []) = (Raise ValueError, world_of ∅ [] []) /\
  U.async_set_preset_mode (H := still_host) (U.__init__ heating_circuit) (Str "9")
    (world_of ∅ [] []) = (Raise ValueError, world_of ∅ [] []).
Proof.
  apply (set_preset_unknown_label (H := still_host) heating_circuit (Str "9")).
  intros s Hs E. injection E as <-. vm_compute in Hs. intuition discriminate.
Defined.

(** C10. The command [set_current_temp_compensation] is defined by the
    class with bias only: called there it writes [str(compensation)] to the
    bias register [prefix/0/3/58/0] and then requests a refresh; the class
    without bias defines the three climate commands and nothing else, so the
    same call on it fails with [AttributeError] before anything is sent, and
    the command sets of the two classes differ by exactly this command. *)
Theorem compensation_command_only_with_bias `{Host}
    (b : B.entity) (u : U.entity) (c : value) (a : call_args) (w : world) :
  command_names (WithoutBias u)
    = ["async_set_hvac_mode"; "async_set_preset_mode"; "async_set_temperature"] /\
  command_names (WithBias b)
    = command_names (WithoutBias u) ++ ["set_current_temp_compensation"] /\
  (exists w',
     call_service (WithBias b) "set_current_temp_compensation" (CompensationArg c) w
       = (Ok tt, w') /\
     issued w w' [Update (bias_register (B._prefix b)) (str repr_float c); RequestRefresh]) /\
  call_service (WithoutBias u) "set_current_temp_compensation" a w
    = (Raise AttributeError, w).
Proof.
  repeat split; try reflexivity.
  eexists. split; [reflexivity|].
  unfold issued; run_monad. rewrite <- !app_assoc. split; reflexivity.
Qed.

(** ** Preset selection *)

Lemma mode_register_not_override (p : string) : mode_register p <> override_register p.
Proof. intros E. apply append_inv_head in E. discriminate E. Qed.

(** One selection of a label of the fixed set: the mode register receives
    the label, and whatever follows is no write to the mode register. *)
Lemma set_preset_step `{Host} (info : device_info) (s : string) (w : world) :
  In s preset_labels ->
  exists tail,
    requests (snd (B.async_set_preset_mode (B.__init__ info) (Str s) w))
      = requests w ++ Update (mode_register (info_prefix info)) s :: tail /\
    forall v, In (Update (mode_register (info_prefix info)) v) tail -> False.
Proof.
  intros Hs. destruct (index_of_label s Hs) as (i & Ei & Es & _).
  unfold B.async_set_preset_mode. run_monad.
  cbn [B.__init__ B._preset_modes B._prefix]. fold preset_labels. rewrite Ei.
  cbn [str]. rewrite Es. rewrite raw_custom_temp_remaining_time_run.
  cbn [B._prefix B.__init__].
  match goal with |- context [int ?x] => destruct (int x) as [n|e] end;
    cbn [gt with_warning data_oids requests warnings].
  - destruct (Z.ltb 0 n); cbn [snd requests].
    + exists [Update (override_register (info_prefix info)) "0"; RequestRefresh].
      split; [now rewrite <- !app_assoc|].
      intros v [E | [E | []]]; [|discriminate E].
      injection E as E _. symmetry in E. now apply mode_register_not_override in E.
    + exists [RequestRefresh].
      split; [now rewrite <- !app_assoc|].
      intros v [E | []]. discriminate E.
  - exists []. split; [reflexivity|]. intros v [].
Qed.

Lemma nobias_set_preset_step `{Host} (info : device_info) (s : string) (w : world) :
  In s preset_labels ->
  exists tail,
    requests (snd (U.async_set_preset_mode (U.__init__ info) (Str s) w))
      = requests w ++ Update (mode_register (info_prefix info)) s :: tail /\
    forall v, In (Update (mode_register (info_prefix info)) v) tail -> False.
Proof.
  intros Hs. destruct (index_of_label s Hs) as (i & Ei & Es & _).
  unfold U.async_set_preset_mode. run_monad.
  cbn [U.__init__ U._preset_modes U._prefix]. fold preset_labels. rewrite Ei.
  cbn [str]. rewrite Es. rewrite nobias_raw_custom_temp_remaining_time_run.
  cbn [U._prefix U.__init__].
  match goal with |- context [int ?x] => destruct (int x) as [n|e] end;
    cbn [gt with_warning data_oids requests warnings].
  - destruct (Z.ltb 0 n); cbn [snd requests].
    + exists [Update (override_register (info_prefix info)) "0"; RequestRefresh].
      split; [now rewrite <- !app_assoc|].
      intros v [E | [E | []]]; [|discriminate E].
      injection E as E _. symmetry in E. now apply mode_register_not_override in E.
    + exists [RequestRefresh].
      split; [now rewrite <- !app_assoc|].
      intros v [E | []]. discriminate E.
  - exists []. split; [reflexivity|]. intros v [].
Qed.

(** C2, as the code has it.  Over any sequence of selections of labels of
    the fixed set, from any world and with any host, the values written to
    the mode register [prefix/0/3/50/0] are exactly the labels selected
    (each label is the decimal string of its own index): ["7"] is written
    precisely when the label ["7"] is among the selections, and never when
    only ["0"] to ["6"] are selected.  Both classes. *)
Theorem mode_writes_are_the_labels `{Host} (info : device_info)
    (labels : list value) (w : world) :
  Forall known_label labels ->
  (exists sent,
     requests (run_presets (B.__init__ info) labels w) = requests w ++ sent /\
     forall v, In (Update (mode_register (info_prefix info)) v) sent <-> In (Str v) labels) /\
  (exists sent,
     requests (run_presets_nobias (U.__init__ info) labels w) = requests w ++ sent /\
     forall v, In (Update (mode_register (info_prefix info)) v) sent <-> In (Str v) labels).
Proof.
  intros Hl. split; revert w; induction Hl as [|l rest (s & -> & Hs) _ IH]; intros w.
  1, 3: exists []; split; [now rewrite app_nil_r | intros v; split; intros []].
  - cbn [run_presets].
    destruct (set_preset_step info s w Hs) as (tail & Et & Htail).
    destruct (IH (snd (B.async_set_preset_mode (B.__init__ info) (Str s) w)))
      as (sent & Es & Hsent).
    exists ((Update (mode_register (info_prefix info)) s :: tail) ++ sent). split.
    + rewrite Es, Et. now rewrite <- app_assoc.
    + intros v. rewrite in_app_iff, Hsent. cbn [In]. split.
      * intros [[E | Hv] | Hv]; [left | exfalso; eauto | now right].
        now injection E as ->.
      * intros [E | Hv]; [left; left | now right]. now injection E as ->.
  - cbn [run_presets_nobias].
    destruct (nobias_set_preset_step info s w Hs) as (tail & Et & Htail).
    destruct (IH (snd (U.async_set_preset_mode (U.__init__ info) (Str s) w)))
      as (sent & Es & Hsent).
    exists ((Update (mode_register (info_prefix info)) s :: tail) ++ sent). split.
    + rewrite Es, Et. now rewrite <- app_assoc.
    + intros v. rewrite in_app_iff, Hsent. cbn [In]. split.
      * intros [[E | Hv] | Hv]; [left | exfalso; eauto | now right].
        now injection E as ->.
      * intros [E | Hv]; [left; left | now right]. now injection E as ->.
Qed.

Lemma known_label_of (s : string) : In s preset_labels -> known_label (Str s).
Proof. intros Hs. exists s. now split. Qed.

Lemma mode_writes_are_the_labels_witness :
  (exists sent,
     requests (run_presets (H := still_host) (B.__init__ heating_circuit)
                 [Str "3"; Str "7"; Str "0"] (world_of ∅ [] [])) = [] ++ sent /\
     forall v, In (Update (mode_register "/1/15") v) sent
               <-> In (Str v) [Str "3"; Str "7"; Str "0"]) /\
  (exists sent,
     requests (run_presets_nobias (H := still_host) (U.__init__ heating_circuit)
                 [Str "3"; Str "7"; Str "0"] (world_of ∅ [] [])) = [] ++ sent /\
     forall v, In (Update (mode_register "/1/15") v) sent
               <-> In (Str v) [Str "3"; Str "7"; Str "0"]).
Proof.
  apply (mode_writes_are_the_labels (H := still_host) heating_circuit
           [Str "3"; Str "7"; Str "0"] (world_of ∅ [] [])).
  repeat constructor; apply known_label_of; vm_compute; tauto.
Defined.

(** C2, as stated, fails: selecting the label ["7"], which is in the fixed
    set, writes ["7"] to the mode register. *)
Lemma selecting_label_7_writes_7 :
  Forall known_label [Str "7"] /\
  requests (run_presets (H := still_host) (B.__init__ heating_circuit) [Str "7"]
              (world_of ∅ [] []))
    = [Update (mode_register "/1/15") "7"; RequestRefresh].
Proof.
  split; [repeat constructor; apply known_label_of; vm_compute; tauto|].
  vm_compute. reflexivity.
Qed.

(** ** Preset and action readings *)

Lemma getitem_label (m : Z) :
  0 <= m <= 6 -> getitem preset_labels (Int m) = Ok (str_of_int m).
Proof.
  intros Hm.
  assert (E : m = 0 \/ m = 1 \/ m = 2 \/ m = 3 \/ m = 4 \/ m = 5 \/ m = 6) by lia.
  repeat (destruct E as [-> | E]; [reflexivity|]). now subst.
Qed.

Lemma preset_mode_override_active (self : B.entity) (w : world) (t : Z) :
  int (dict_get (oids_of w) (override_register (B._prefix self)) (Int 0)) = Ok t ->
  0 < t ->
  B.preset_mode self w = lift (getitem (B._preset_modes self) (Int 7)) w.
Proof.
  intros Et Ht. unfold B.preset_mode. run_monad.
  rewrite raw_custom_temp_remaining_time_run, Et. cbn [gt].
  apply Z.ltb_lt in Ht. now rewrite Ht.
Qed.

Lemma preset_mode_override_idle (self : B.entity) (w : world) (t m : Z) :
  int (dict_get (oids_of w) (override_register (B._prefix self)) (Int 0)) = Ok t ->
  t <= 0 ->
  int (dict_get (oids_of w) (mode_register (B._prefix self)) (Int 0)) = Ok m ->
  B.preset_mode self w = lift (getitem (B._preset_modes self) (Int m)) w.
Proof.
  intros Et Ht Em. unfold B.preset_mode. run_monad.
  rewrite raw_custom_temp_remaining_time_run, Et. cbn [gt].
  apply Z.ltb_ge in Ht. rewrite Ht.
  now rewrite raw_preset_mode_run, Em.
Qed.

Lemma nobias_preset_mode_override_active (self : U.entity) (w : world) (t : Z) :
  int (dict_get (oids_of w) (override_register (U._prefix self)) (Int 0)) = Ok t ->
  0 < t ->
  U.preset_mode self w = lift (getitem (U._preset_modes self) (Int 7)) w.
Proof.
  intros Et Ht. unfold U.preset_mode. run_monad.
  rewrite nobias_raw_custom_temp_remaining_time_run, Et. cbn [gt].
  apply Z.ltb_lt in Ht. now rewrite Ht.
Qed.

Lemma nobias_preset_mode_override_idle (self : U.entity) (w : world) (t m : Z) :
  int (dict_get (oids_of w) (override_register (U._prefix self)) (Int 0)) = Ok t ->
  t <= 0 ->
  int (dict_get (oids_of w) (mode_register (U._prefix self)) (Int 0)) = Ok m ->
  U.preset_mode self w = lift (getitem (U._preset_modes self) (Int m)) w.
Proof.
  intros Et Ht Em. unfold U.preset_mode. run_monad.
  rewrite nobias_raw_custom_temp_remaining_time_run, Et. cbn [gt].
  apply Z.ltb_ge in Ht. rewrite Ht.
  now rewrite nobias_raw_preset_mode_run, Em.
Qed.

(** C3. Let the override register [prefix/0/2/10/0] of a store read as the
    integer [t].  If [t > 0], [preset_mode] of either class returns ["7"],
    whatever the mode register holds.  If [t <= 0] and the mode register
    [prefix/0/3/50/0] reads as an integer [m] with [0 <= m <= 6],
    [preset_mode] returns the decimal string of [m].  Nothing is logged. *)
Theorem preset_mode_reading (info : device_info) (st : gmap string string)
    (rq : list request) (ws : list log_record) (t : Z) :
  int (dict_get st (override_register (info_prefix info)) (Int 0)) = Ok t ->
  (0 < t ->
     B.preset_mode (B.__init__ info) (world_of st rq ws) = (Ok "7", world_of st rq ws) /\
     U.preset_mode (U.__init__ info) (world_of st rq ws) = (Ok "7", world_of st rq ws)) /\
  (t <= 0 ->
     forall m, int (dict_get st (mode_register (info_prefix info)) (Int 0)) = Ok m ->
       0 <= m <= 6 ->
       B.preset_mode (B.__init__ info) (world_of st rq ws)
         = (Ok (str_of_int m), world_of st rq ws) /\
       U.preset_mode (U.__init__ info) (world_of st rq ws)
         = (Ok (str_of_int m), world_of st rq ws)).
Proof.
  intros Et. split.
  - intros Ht. split.
    + now rewrite (preset_mode_override_active _ _ t).
    + now rewrite (nobias_preset_mode_override_active _ _ t).
  - intros Ht m Em Hm. split.
    + rewrite (preset_mode_override_idle _ _ t m) by assumption.
      cbn [B.__init__ B._preset_modes]. fold preset_labels.
      unfold lift. now rewrite getitem_label.
    + rewrite (nobias_preset_mode_override_idle _ _ t m) by assumption.
      cbn [U.__init__ U._preset_modes]. fold preset_labels.
      unfold lift. now rewrite getitem_label.
Qed.

Lemma preset_mode_reading_witness :
  (B.preset_mode (B.__init__ heating_circuit) (world_of override_running [] [])
     = (Ok "7", world_of override_running [] []) /\
   U.preset_mode (U.__init__ heating_circuit) (world_of override_running [] [])
     = (Ok "7", world_of override_running [] [])) /\
  (B.preset_mode (B.__init__ heating_circuit) (world_of comfort_mode [] [])
     = (Ok "3", world_of comfort_mode [] []) /\
   U.preset_mode (U.__init__ heating_circuit) (world_of comfort_mode [] [])
     = (Ok "3", world_of comfort_mode [] [])).
Proof.
  split.
  - apply (proj1 (preset_mode_reading heating_circuit override_running [] [] 120
                    ltac:(vm_compute; reflexivity))).
    lia.
  - apply (proj2 (preset_mode_reading heating_circuit comfort_mode [] [] 0
                    ltac:(vm_compute; reflexivity))
             ltac:(lia) 3 ltac:(vm_compute; reflexivity) ltac:(lia)).
Defined.

Lemma hvac_action_run (self : B.entity) (w : world) :
  exists w',
    B.hvac_action self w
      = (Ok match int (dict_get (oids_of w) (mode_register (B._prefix self)) (Int 0)) with
            | Ok 0 => OFF
            | _ => HEATING
            end, w') /\
    (w' = w \/ warned_once w w').
Proof.
  unfold B.hvac_action. run_monad. rewrite raw_preset_mode_run.
  destruct (int _) as [n|e]; cbn [eq].
  - exists w. split; [|now left]. now destruct n.
  - eexists. split; [reflexivity|]. right. eexists. reflexivity.
Qed.

Lemma nobias_hvac_action_run (self : U.entity) (w : world) :
  exists w',
    U.hvac_action self w
      = (Ok match int (dict_get (oids_of w) (mode_register (U._prefix self)) (Int 0)) with
            | Ok 0 => OFF
            | _ => HEATING
            end, w') /\
    (w' = w \/ warned_once w w').
Proof.
  unfold U.hvac_action. run_monad. rewrite nobias_raw_preset_mode_run.
  destruct (int _) as [n|e]; cbn [eq].
  - exists w. split; [|now left]. now destruct n.
  - eexists. split; [reflexivity|]. right. eexists. reflexivity.
Qed.

Lemma action_of_reading (r : result Z) :
  let a := match r with Ok 0 => OFF | _ => HEATING end in
  (a = OFF <-> r = Ok 0) /\ (a = OFF \/ a = HEATING).
Proof.
  destruct r as [[|p|p]|e]; cbn; (split; [split; intros E; (reflexivity || discriminate E)|]);
    auto.
Qed.

(** C7. For every register store whose mode register [prefix/0/3/50/0], when
    present, holds ASCII text, [hvac_action] of either class returns a
    value, and that value is [OFF] if and only if the mode register, read
    with the accessor's default, parses to the integer 0; in every other
    case it is [HEATING]. *)
Theorem hvac_action_off_iff_mode_zero (info : device_info) (st : gmap string string)
    (rq : list request) (ws : list log_record) :
  ascii_register st (mode_register (info_prefix info)) ->
  (exists a w',
     B.hvac_action (B.__init__ info) (world_of st rq ws) = (Ok a, w') /\
     (a = OFF <-> int (dict_get st (mode_register (info_prefix info)) (Int 0)) = Ok 0) /\
     (a = OFF \/ a = HEATING)) /\
  (exists a w',
     U.hvac_action (U.__init__ info) (world_of st rq ws) = (Ok a, w') /\
     (a = OFF <-> int (dict_get st (mode_register (info_prefix info)) (Int 0)) = Ok 0) /\
     (a = OFF \/ a = HEATING)).
Proof.
  intros _. split.
  - destruct (hvac_action_run (B.__init__ info) (world_of st rq ws)) as (w' & E & _).
    eexists _, w'. split; [exact E|]. apply action_of_reading.
  - destruct (nobias_hvac_action_run (U.__init__ info) (world_of st rq ws)) as (w' & E & _).
    eexists _, w'. split; [exact E|]. apply action_of_reading.
Qed.

Lemma ascii_register_comfort_mode (key : string) : ascii_register comfort_mode key.
Proof.
  intros s Hs. unfold comfort_mode in Hs.
  apply lookup_insert_Some in Hs as [[_ <-] | [_ Hs]]; [reflexivity|].
  apply lookup_singleton_Some in Hs as [_ <-]. reflexivity.
Qed.

Lemma hvac_action_off_iff_mode_zero_witness :
  (exists a w',
     B.hvac_action (B.__init__ heating_circuit) (world_of comfort_mode [] []) = (Ok a, w') /\
     (a = OFF <-> int (dict_get comfort_mode (mode_register "/1/15") (Int 0)) = Ok 0) /\
     (a = OFF \/ a = HEATING)) /\
  (exists a w',
     U.hvac_action (U.__init__ heating_circuit) (world_of comfort_mode [] []) = (Ok a, w') /\
     (a = OFF <-> int (dict_get comfort_mode (mode_register "/1/15") (Int 0)) = Ok 0) /\
     (a = OFF \/ a = HEATING)).
Proof.
  apply (hvac_action_off_iff_mode_zero heating_circuit comfort_mode [] []).
  apply ascii_register_comfort_mode.
Defined.

(** ** Temperature readings *)

Lemma float_default_zero : float (Str "0") = Ok (S754_zero false).
Proof. reflexivity. Qed.

Lemma float_sub_zero (x : spec_float) : float_sub x (S754_zero false) = x.
Proof. destruct x as [[]| | |]; reflexivity. Qed.

Lemma float_reading_cases (st : gmap string string) (key : string) :
  (exists f, float (dict_get st key (Str "0")) = Ok f) \/
  (float (dict_get st key (Str "0")) = Raise ValueError /\ is_Some (st !! key)).
Proof.
  unfold dict_get. destruct (st !! key) as [s|] eqn:E.
  - cbn [float]. destruct (float_of_string s) eqn:P; [left | right]; eauto.
  - left. rewrite float_default_zero. eauto.
Qed.

Lemma malformed_float_raises (st : gmap string string) (key : string) (d : value) :
  malformed_float st key -> float (dict_get st key d) = Raise ValueError.
Proof.
  intros (s & E & _ & P). unfold dict_get. rewrite E. cbn [float]. now rewrite P.
Qed.

Lemma float_missing (st : gmap string string) (key : string) :
  st !! key = None -> float (dict_get st key (Str "0")) = Ok (S754_zero false).
Proof. intros E. unfold dict_get. rewrite E. apply float_default_zero. Qed.

(** The common shape of the two temperature properties with bias. *)
Lemma try_float_difference (key1 key2 m : string) (a : list string) (w : world) :
  try_except
    (oids <- coordinator_data_get_oids_default;;
     x <- lift (float (dict_get oids key1 (Str "0")));;
     oids' <- coordinator_data_get_oids_default;;
     y <- lift (float (dict_get oids' key2 (Str "0")));;
     ret (Float (float_sub x y)))
    [ValueError; TypeError]
    (_LOGGER_warning m a;; ret None_) w
  = match float (dict_get (oids_of w) key1 (Str "0")),
          float (dict_get (oids_of w) key2 (Str "0")) with
    | Ok x, Ok y => (Ok (Float (float_sub x y)), w)
    | _, _ => (Ok None_, with_warning w {| msg := m; args := a |})
    end.
Proof.
  run_monad. unfold oids_of.
  destruct (float_reading_cases (default ∅ (data_oids w)) key1) as [[x E1] | [E1 _]];
    rewrite E1; [|reflexivity].
  destruct (float_reading_cases (default ∅ (data_oids w)) key2) as [[y E2] | [E2 _]];
    rewrite E2; reflexivity.
Qed.

Lemma current_temperature_run (self : B.entity) (w : world) :
  B.current_temperature self w
  = match float (dict_get (oids_of w) (current_register (B._prefix self)) (Str "0")),
          float (dict_get (oids_of w) (bias_register (B._prefix self)) (Str "0")) with
    | Ok x, Ok y => (Ok (Float (float_sub x y)), w)
    | _, _ =>
        (Ok None_,
         with_warning w
           {| msg := "Invalid current temperature value for %s, setting as None.";
              args := [B._prefix self] |})
    end.
Proof. apply try_float_difference. Qed.

Lemma target_temperature_run (self : B.entity) (w : world) :
  B.target_temperature self w
  = match float (dict_get (oids_of w) (target_register (B._prefix self)) (Str "0")),
          float (dict_get (oids_of w) (bias_register (B._prefix self)) (Str "0")) with
    | Ok x, Ok y => (Ok (Float (float_sub x y)), w)
    | _, _ =>
        (Ok None_,
         with_warning w
           {| msg := "Invalid target temperature value for %s, setting as None.";
              args := [B._prefix self] |})
    end.
Proof. apply try_float_difference. Qed.

(** Without bias, on a world that holds a register store. *)
Lemma nobias_current_temperature_run (self : U.entity) (st : gmap string string)
    (rq : list request) (ws : list log_record) :
  U.current_temperature self (world_of st rq ws)
  = match float (dict_get st (current_register (U._prefix self)) (Str "0")) with
    | Ok x => (Ok (Float x), world_of st rq ws)
    | Raise _ =>
        (Ok None_,
         with_warning (world_of st rq ws)
           {| msg := "Invalid current temperature value for %s, setting as None.";
              args := [U._prefix self] |})
    end.
Proof.
  unfold U.current_temperature. run_monad. cbn [get_method world_of data_oids].
  destruct (float_reading_cases st (current_register (U._prefix self))) as [[x E] | [E _]];
    unfold current_register in *; rewrite E; reflexivity.
Qed.

Lemma nobias_target_temperature_run (self : U.entity) (st : gmap string string)
    (rq : list request) (ws : list log_record) :
  U.target_temperature self (world_of st rq ws)
  = match float (dict_get st (target_register (U._prefix self)) None_) with
    | Ok x => (Ok (Float x), world_of st rq ws)
    | Raise _ =>
        (Ok None_,
         with_warning (world_of st rq ws)
           {| msg := "Invalid target temperature value for %s, setting as None.";
              args := [U._prefix self] |})
    end.
Proof.
  unfold U.target_temperature. run_monad. cbn [get_method world_of data_oids].
  unfold target_register, dict_get.
  destruct (st !! (U._prefix self +:+ "/0/1/1/0")) as [s|]; cbn [float].
  - destruct (float_of_string s); reflexivity.
  - reflexivity.
Qed.

Ltac settle_reading :=
  do 2 eexists; (split; [reflexivity|]);
  solve [ left; split; [discriminate | reflexivity]
        | right; split; [reflexivity | eexists; reflexivity] ].

Lemma fail_soft_int_reading (m : M value) (w : world) (r : result Z) (rec : log_record) :
  m w = match r with
        | Ok n => (Ok (Int n), w)
        | Raise _ => (Ok None_, with_warning w rec)
        end ->
  fail_soft m w.
Proof. intros E. unfold fail_soft. rewrite E. destruct r; settle_reading. Qed.

Lemma fail_soft_float_reading (m : M value) (w : world) (r : result spec_float)
    (rec : log_record) :
  m w = match r with
        | Ok x => (Ok (Float x), w)
        | Raise _ => (Ok None_, with_warning w rec)
        end ->
  fail_soft m w.
Proof. intros E. unfold fail_soft. rewrite E. destruct r; settle_reading. Qed.

Lemma fail_soft_float_difference (m : M value) (w : world) (r1 r2 : result spec_float)
    (rec : log_record) :
  m w = match r1, r2 with
        | Ok x, Ok y => (Ok (Float (float_sub x y)), w)
        | _, _ => (Ok None_, with_warning w rec)
        end ->
  fail_soft m w.
Proof. intros E. unfold fail_soft. rewrite E. destruct r1, r2; settle_reading. Qed.

Lemma absent_float_difference (m : M value) (w : world) (r1 r2 : result spec_float)
    (rec : log_record) :
  m w = match r1, r2 with
        | Ok x, Ok y => (Ok (Float (float_sub x y)), w)
        | _, _ => (Ok None_, with_warning w rec)
        end ->
  r1 = Raise ValueError \/ r2 = Raise ValueError ->
  returns_absent m w.
Proof.
  intros E Hr. unfold returns_absent. rewrite E.
  destruct Hr as [-> | ->]; [|destruct r1]; eexists; (split; [reflexivity|]);
    eexists; reflexivity.
Qed.

Lemma absent_reading {A : Type} (m : M value) (w : world) (r : result A)
    (f : A -> result value * world) (rec : log_record) (e : exn) :
  m w = match r with
        | Ok x => f x
        | Raise _ => (Ok None_, with_warning w rec)
        end ->
  r = Raise e ->
  returns_absent m w.
Proof.
  intros E ->. unfold returns_absent. rewrite E.
  eexists; (split; [reflexivity|]); eexists; reflexivity.
Qed.

Lemma hvac_action_malformed (self : B.entity) (w : world) :
  malformed_int (oids_of w) (mode_register (B._prefix self)) ->
  exists w', B.hvac_action self w = (Ok HEATING, w') /\ warned_once w w'.
Proof.
  intros Hm. unfold B.hvac_action. run_monad.
  rewrite raw_preset_mode_run, (malformed_int_raises _ _ Hm).
  eexists. split; [reflexivity|]. eexists. reflexivity.
Qed.

Lemma nobias_hvac_action_malformed (self : U.entity) (w : world) :
  malformed_int (oids_of w) (mode_register (U._prefix self)) ->
  exists w', U.hvac_action self w = (Ok HEATING, w') /\ warned_once w w'.
Proof.
  intros Hm. unfold U.hvac_action. run_monad.
  rewrite nobias_raw_preset_mode_run, (malformed_int_raises _ _ Hm).
  eexists. split; [reflexivity|]. eexists. reflexivity.
Qed.

Lemma int_missing (st : gmap string string) (key : string) :
  st !! key = None -> int (dict_get st key (Int 0)) = Ok 0.
Proof. intros E. unfold dict_get. now rewrite E. Qed.

Lemma hvac_action_missing (self : B.entity) (w : world) :
  oids_of w !! mode_register (B._prefix self) = None ->
  B.hvac_action self w = (Ok OFF, w).
Proof.
  intros E. unfold B.hvac_action. run_monad.
  now rewrite raw_preset_mode_run, (int_missing _ _ E).
Qed.

Lemma nobias_hvac_action_missing (self : U.entity) (w : world) :
  oids_of w !! mode_register (U._prefix self) = None ->
  U.hvac_action self w = (Ok OFF, w).
Proof.
  intros E. unfold U.hvac_action. run_monad.
  now rewrite nobias_raw_preset_mode_run, (int_missing _ _ E).
Qed.

Lemma hvac_action_full_run (info : device_info) (w : world) :
  B.hvac_action (B.__init__ info) w
  = match int (dict_get (oids_of w) (mode_register (info_prefix info)) (Int 0)) with
    | Ok n => (Ok (if Z.eqb n 0 then OFF else HEATING), w)
    | Raise _ =>
        (Ok HEATING,
         with_warning w
           {| msg := "Invalid preset mode for %s, setting as None.";
              args := [info_prefix info] |})
    end.
Proof.
  unfold B.hvac_action. run_monad. rewrite raw_preset_mode_run.
  cbn [B.__init__ B._prefix].
  destruct (int _) as [n|e]; cbn [eq]; [|reflexivity].
  destruct (Z.eqb n 0); reflexivity.
Qed.

Lemma outcome_float_reading (m m' : M value) (w w' : world) (r : result spec_float)
    (rec : log_record) :
  warnings w = warnings w' ->
  m w = match r with
        | Ok x => (Ok (Float x), w)
        | Raise _ => (Ok None_, with_warning w rec)
        end ->
  m' w' = match r with
          | Ok x => (Ok (Float x), w')
          | Raise _ => (Ok None_, with_warning w' rec)
          end ->
  outcome m w = outcome m' w'.
Proof.
  intros Ew E E'. unfold outcome. rewrite E, E'.
  destruct r; cbn [fst snd with_warning warnings]; now rewrite Ew.
Qed.

Lemma outcome_float_difference (m m' : M value) (w w' : world) (r1 r2 : result spec_float)
    (rec : log_record) :
  warnings w = warnings w' ->
  m w = match r1, r2 with
        | Ok x, Ok y => (Ok (Float (float_sub x y)), w)
        | _, _ => (Ok None_, with_warning w rec)
        end ->
  m' w' = match r1, r2 with
          | Ok x, Ok y => (Ok (Float (float_sub x y)), w')
          | _, _ => (Ok None_, with_warning w' rec)
          end ->
  outcome m w = outcome m' w'.
Proof.
  intros Ew E E'. unfold outcome. rewrite E, E'.
  destruct r1, r2; cbn [fst snd with_warning warnings]; now rewrite Ew.
Qed.

Lemma outcome_int_reading (m m' : M value) (w w' : world) (r : result Z)
    (rec : log_record) :
  warnings w = warnings w' ->
  m w = match r with
        | Ok n => (Ok (Int n), w)
        | Raise _ => (Ok None_, with_warning w rec)
        end ->
  m' w' = match r with
          | Ok n => (Ok (Int n), w')
          | Raise _ => (Ok None_, with_warning w' rec)
          end ->
  outcome m w = outcome m' w'.
Proof.
  intros Ew E E'. unfold outcome. rewrite E, E'.
  destruct r; cbn [fst snd with_warning warnings]; now rewrite Ew.
Qed.

(** Setting a missing register to ["0"] changes no lookup that passes the
    default ["0"] or [0]. *)
Lemma float_reading_insert_default (st : gmap string string) (k k' : string) :
  st !! k = None ->
  float (dict_get (<[k := "0"]> st) k' (Str "0")) = float (dict_get st k' (Str "0")).
Proof.
  intros E. unfold dict_get. destruct (decide (k = k')) as [<- | Hk].
  - now rewrite lookup_insert_eq, E.
  - now rewrite lookup_insert_ne.
Qed.

Lemma int_reading_insert_default (st : gmap string string) (k k' : string) :
  st !! k = None ->
  int (dict_get (<[k := "0"]> st) k' (Int 0)) = int (dict_get st k' (Int 0)).
Proof.
  intros E. unfold dict_get. destruct (decide (k = k')) as [<- | Hk].
  - now rewrite lookup_insert_eq, E.
  - now rewrite lookup_insert_ne.
Qed.

Ltac same_int_reading run E :=
  eapply outcome_int_reading;
  [ reflexivity
  | apply run
  | rewrite run;
    match goal with
    | |- context [oids_of (world_of ?s ?q ?l)] =>
        change (oids_of (world_of s q l)) with s
    end;
    rewrite (int_reading_insert_default _ _ _ E); reflexivity ].

(** A register missing from the store is read as if it held ["0"] by every
    reading whose lookup passes a default. *)
Lemma missing_register_reads_as_zero (info : device_info) (st : gmap string string)
    (rq : list request) (ws : list log_record) (k : string) :
  st !! k = None ->
  let w := world_of st rq ws in
  let w0 := world_of (<[k := "0"]> st) rq ws in
  let b := B.__init__ info in
  let u := U.__init__ info in
  outcome (B.current_temperature b) w = outcome (B.current_temperature b) w0 /\
  outcome (B.target_temperature b) w = outcome (B.target_temperature b) w0 /\
  outcome (U.current_temperature u) w = outcome (U.current_temperature u) w0 /\
  outcome (B.raw_selected_mode b) w = outcome (B.raw_selected_mode b) w0 /\
  outcome (U.raw_selected_mode u) w = outcome (U.raw_selected_mode u) w0 /\
  outcome (B.raw_custom_temp_remaining_time b) w
    = outcome (B.raw_custom_temp_remaining_time b) w0 /\
  outcome (U.raw_custom_temp_remaining_time u) w
    = outcome (U.raw_custom_temp_remaining_time u) w0 /\
  outcome (B.raw_preset_mode b) w = outcome (B.raw_preset_mode b) w0 /\
  outcome (U.raw_preset_mode u) w = outcome (U.raw_preset_mode u) w0 /\
  outcome (B.hvac_action b) w = outcome (B.hvac_action b) w0 /\
  outcome (U.hvac_action u) w = outcome (U.hvac_action u) w0.
Proof.
  intros E w w0 b u. subst w w0 b u.
  assert (Ha : outcome (B.hvac_action (B.__init__ info)) (world_of st rq ws)
               = outcome (B.hvac_action (B.__init__ info))
                   (world_of (<[k := "0"]> st) rq ws)).
  { unfold outcome. rewrite !hvac_action_full_run.
    change (oids_of (world_of (<[k := "0"]> st) rq ws)) with (<[k := "0"]> st).
    change (oids_of (world_of st rq ws)) with st.
    rewrite (int_reading_insert_default _ _ _ E).
    destruct (int _); reflexivity. }
  split; [|split; [|split]].
  - eapply outcome_float_difference; [reflexivity | apply current_temperature_run |].
    rewrite current_temperature_run.
    change (oids_of (world_of (<[k := "0"]> st) rq ws)) with (<[k := "0"]> st).
    now rewrite !(float_reading_insert_default _ _ _ E).
  - eapply outcome_float_difference; [reflexivity | apply target_temperature_run |].
    rewrite target_temperature_run.
    change (oids_of (world_of (<[k := "0"]> st) rq ws)) with (<[k := "0"]> st).
    now rewrite !(float_reading_insert_default _ _ _ E).
  - eapply outcome_float_reading; [reflexivity | apply nobias_current_temperature_run |].
    rewrite nobias_current_temperature_run.
    now rewrite (float_reading_insert_default _ _ _ E).
  - split; [same_int_reading raw_selected_mode_run E|].
    split; [same_int_reading nobias_raw_selected_mode_run E|].
    split; [same_int_reading raw_custom_temp_remaining_time_run E|].
    split; [same_int_reading nobias_raw_custom_temp_remaining_time_run E|].
    split; [same_int_reading raw_preset_mode_run E|].
    split; [same_int_reading nobias_raw_preset_mode_run E|].
    split; exact Ha.
Qed.

(** C1, as the code has it.  On every register store, the temperature
    properties of both classes, the three raw accessors and [hvac_action]
    never raise and touch neither the store nor the requests: a temperature
    property or raw accessor returns either a value, logging nothing, or the
    absent value with exactly one warning; [hvac_action] returns an action
    with at most one warning.  A register holding malformed text (ASCII text
    that [float], resp. [int], rejects) makes every temperature property and
    raw accessor that reads it absent, and makes [hvac_action] report
    [HEATING].  Where the lookup passes a default, a missing register is
    read as that default: with its registers missing a temperature property
    returns [0.0], a raw accessor [0] and [hvac_action] [OFF], logging
    nothing; and in general every such reading returns and logs on a store
    that misses a register what it does on that store with the register set
    to ["0"].  ([preset_mode] is not part of this guarantee.) *)
Theorem readings_fail_soft (info : device_info) (st : gmap string string)
    (rq : list request) (ws : list log_record) :
  let w := world_of st rq ws in
  let b := B.__init__ info in
  let u := U.__init__ info in
  let p := info_prefix info in
  (fail_soft (B.current_temperature b) w /\ fail_soft (B.target_temperature b) w /\
   fail_soft (U.current_temperature u) w /\ fail_soft (U.target_temperature u) w /\
   fail_soft (B.raw_selected_mode b) w /\ fail_soft (U.raw_selected_mode u) w /\
   fail_soft (B.raw_custom_temp_remaining_time b) w /\
   fail_soft (U.raw_custom_temp_remaining_time u) w /\
   fail_soft (B.raw_preset_mode b) w /\ fail_soft (U.raw_preset_mode u) w /\
   (exists a w', B.hvac_action b w = (Ok a, w') /\ (w' = w \/ warned_once w w')) /\
   (exists a w', U.hvac_action u w = (Ok a, w') /\ (w' = w \/ warned_once w w'))) /\
  ((malformed_float st (current_register p) \/ malformed_float st (bias_register p) ->
      returns_absent (B.current_temperature b) w) /\
   (malformed_float st (target_register p) \/ malformed_float st (bias_register p) ->
      returns_absent (B.target_temperature b) w) /\
   (malformed_float st (current_register p) ->
      returns_absent (U.current_temperature u) w) /\
   (malformed_float st (target_register p) ->
      returns_absent (U.target_temperature u) w) /\
   (malformed_int st (override_register p) ->
      returns_absent (B.raw_custom_temp_remaining_time b) w /\
      returns_absent (U.raw_custom_temp_remaining_time u) w) /\
   (malformed_int st (mode_register p) ->
      returns_absent (B.raw_selected_mode b) w /\
      returns_absent (U.raw_selected_mode u) w /\
      returns_absent (B.raw_preset_mode b) w /\
      returns_absent (U.raw_preset_mode u) w /\
      (exists w', B.hvac_action b w = (Ok HEATING, w') /\ warned_once w w') /\
      (exists w', U.hvac_action u w = (Ok HEATING, w') /\ warned_once w w'))) /\
  ((st !! current_register p = None -> st !! bias_register p = None ->
      B.current_temperature b w = (Ok (Float (S754_zero false)), w)) /\
   (st !! target_register p = None -> st !! bias_register p = None ->
      B.target_temperature b w = (Ok (Float (S754_zero false)), w)) /\
   (st !! current_register p = None ->
      U.current_temperature u w = (Ok (Float (S754_zero false)), w)) /\
   (st !! override_register p = None ->
      B.raw_custom_temp_remaining_time b w = (Ok (Int 0), w) /\
      U.raw_custom_temp_remaining_time u w = (Ok (Int 0), w)) /\
   (st !! mode_register p = None ->
      B.raw_preset_mode b w = (Ok (Int 0), w) /\
      U.raw_preset_mode u w = (Ok (Int 0), w) /\
      B.raw_selected_mode b w = (Ok (Int 0), w) /\
      U.raw_selected_mode u w = (Ok (Int 0), w) /\
      B.hvac_action b w = (Ok OFF, w) /\
      U.hvac_action u w = (Ok OFF, w))) /\
  (forall k, st !! k = None ->
     let w0 := world_of (<[k := "0"]> st) rq ws in
     outcome (B.current_temperature b) w = outcome (B.current_temperature b) w0 /\
     outcome (B.target_temperature b) w = outcome (B.target_temperature b) w0 /\
     outcome (U.current_temperature u) w = outcome (U.current_temperature u) w0 /\
     outcome (B.raw_selected_mode b) w = outcome (B.raw_selected_mode b) w0 /\
     outcome (U.raw_selected_mode u) w = outcome (U.raw_selected_mode u) w0 /\
     outcome (B.raw_custom_temp_remaining_time b) w
       = outcome (B.raw_custom_temp_remaining_time b) w0 /\
     outcome (U.raw_custom_temp_remaining_time u) w
       = outcome (U.raw_custom_temp_remaining_time u) w0 /\
     outcome (B.raw_preset_mode b) w = outcome (B.raw_preset_mode b) w0 /\
     outcome (U.raw_preset_mode u) w = outcome (U.raw_preset_mode u) w0 /\
     outcome (B.hvac_action b) w = outcome (B.hvac_action b) w0 /\
     outcome (U.hvac_action u) w = outcome (U.hvac_action u) w0).
Proof.
  intros w b u p. split; [|split; [|split]];
    [| | |intros k Ek; apply (missing_register_reads_as_zero info st rq ws k Ek)].
  - repeat split.
    + eapply fail_soft_float_difference, current_temperature_run.
    + eapply fail_soft_float_difference, target_temperature_run.
    + eapply fail_soft_float_reading, nobias_current_temperature_run.
    + eapply fail_soft_float_reading, nobias_target_temperature_run.
    + eapply fail_soft_int_reading, raw_selected_mode_run.
    + eapply fail_soft_int_reading, nobias_raw_selected_mode_run.
    + eapply fail_soft_int_reading, raw_custom_temp_remaining_time_run.
    + eapply fail_soft_int_reading, nobias_raw_custom_temp_remaining_time_run.
    + eapply fail_soft_int_reading, raw_preset_mode_run.
    + eapply fail_soft_int_reading, nobias_raw_preset_mode_run.
    + destruct (hvac_action_run b w) as (w' & E & Hw). eauto.
    + destruct (nobias_hvac_action_run u w) as (w' & E & Hw). eauto.
  - split; [|split; [|split; [|split; [|split]]]].
    + intros Hm. eapply absent_float_difference; [apply current_temperature_run|].
      destruct Hm as [Hm | Hm]; [left | right]; apply malformed_float_raises, Hm.
    + intros Hm. eapply absent_float_difference; [apply target_temperature_run|].
      destruct Hm as [Hm | Hm]; [left | right]; apply malformed_float_raises, Hm.
    + intros Hm. eapply absent_reading; [apply nobias_current_temperature_run|].
      apply malformed_float_raises, Hm.
    + intros Hm. eapply absent_reading; [apply nobias_target_temperature_run|].
      apply malformed_float_raises, Hm.
    + intros Hm. split.
      * eapply absent_reading; [apply raw_custom_temp_remaining_time_run|].
        apply malformed_int_raises, Hm.
      * eapply absent_reading; [apply nobias_raw_custom_temp_remaining_time_run|].
        apply malformed_int_raises, Hm.
    + intros Hm. repeat split.
      * eapply absent_reading; [apply raw_selected_mode_run|].
        apply malformed_int_raises, Hm.
      * eapply absent_reading; [apply nobias_raw_selected_mode_run|].
        apply malformed_int_raises, Hm.
      * eapply absent_reading; [apply raw_preset_mode_run|].
        apply malformed_int_raises, Hm.
      * eapply absent_reading; [apply nobias_raw_preset_mode_run|].
        apply malformed_int_raises, Hm.
      * apply hvac_action_malformed, Hm.
      * apply nobias_hvac_action_malformed, Hm.
  - split; [|split; [|split; [|split]]].
    + intros E1 E2. rewrite current_temperature_run.
      now rewrite (float_missing (oids_of w) (current_register (B._prefix b)) E1),
        (float_missing (oids_of w) (bias_register (B._prefix b)) E2).
    + intros E1 E2. rewrite target_temperature_run.
      now rewrite (float_missing (oids_of w) (target_register (B._prefix b)) E1),
        (float_missing (oids_of w) (bias_register (B._prefix b)) E2).
    + intros E1. subst w. rewrite nobias_current_temperature_run.
      now rewrite (float_missing st (current_register (U._prefix u)) E1).
    + intros E1. split.
      * now rewrite raw_custom_temp_remaining_time_run,
          (int_missing (oids_of w) (override_register (B._prefix b)) E1).
      * now rewrite nobias_raw_custom_temp_remaining_time_run,
          (int_missing (oids_of w) (override_register (U._prefix u)) E1).
    + intros E1. repeat split.
      * now rewrite raw_preset_mode_run,
          (int_missing (oids_of w) (mode_register (B._prefix b)) E1).
      * now rewrite nobias_raw_preset_mode_run,
          (int_missing (oids_of w) (mode_register (U._prefix u)) E1).
      * now rewrite raw_selected_mode_run,
          (int_missing (oids_of w) (mode_register (B._prefix b)) E1).
      * now rewrite nobias_raw_selected_mode_run,
          (int_missing (oids_of w) (mode_register (U._prefix u)) E1).
      * apply hvac_action_missing, E1.
      * apply nobias_hvac_action_missing, E1.
Qed.

Lemma readings_fail_soft_witness :
  returns_absent (B.target_temperature (B.__init__ heating_circuit))
    (world_of garbled_setpoint [] []) /\
  returns_absent (U.target_temperature (U.__init__ heating_circuit))
    (world_of garbled_setpoint [] []) /\
  B.current_temperature (B.__init__ heating_circuit) (world_of ∅ [] [])
    = (Ok (Float (S754_zero false)), world_of ∅ [] []) /\
  outcome (B.current_temperature (B.__init__ heating_circuit))
      (world_of no_current_register [] [])
    = outcome (B.current_temperature (B.__init__ heating_circuit))
        (world_of (<[current_register "/1/15" := "0"]> no_current_register) [] []).
Proof.
  destruct (readings_fail_soft heating_circuit garbled_setpoint [] [])
    as (_ & (_ & Hb & _ & Hu & _) & _).
  destruct (readings_fail_soft heating_circuit ∅ [] []) as (_ & _ & (Hc & _) & _).
  destruct (readings_fail_soft heating_circuit no_current_register [] [])
    as (_ & _ & _ & Hz).
  split; [|split; [|split]].
  - apply Hb. left. exists "abc". repeat split; vm_compute; reflexivity.
  - apply Hu. exists "abc". repeat split; vm_compute; reflexivity.
  - apply Hc; vm_compute; reflexivity.
  - apply (Hz (current_register "/1/15")). vm_compute. reflexivity.
Defined.

(** C1, as stated, fails.  With malformed text in the override register,
    [raw_custom_temp_remaining_time] logs its warning and returns [None],
    and [preset_mode] then raises [TypeError] comparing it with 0; with
    malformed text in the mode register, [preset_mode] raises [TypeError]
    subscripting the label list with [None].  And a missing register does
    not make a reading absent: where only the current register is missing
    (bias ["1.0"]), the current temperature is [0.0 - 1.0 = -1.0] with bias
    and [0.0] without, and nothing is logged. *)
Lemma preset_mode_raises_on_malformed_register :
  B.preset_mode (B.__init__ heating_circuit) (world_of garbled_override [] [])
    = (Raise TypeError,
       world_of garbled_override []
         [{| msg := "Invalid custom temp remaining time for %s, setting as None.";
             args := ["/1/15"] |}]) /\
  U.preset_mode (U.__init__ heating_circuit) (world_of garbled_override [] [])
    = (Raise TypeError,
       world_of garbled_override []
         [{| msg := "Invalid custom temp remaining time for %s, setting as None.";
             args := ["/1/15"] |}]) /\
  B.preset_mode (B.__init__ heating_circuit)
      (world_of {[ mode_register "/1/15" := "abc" ]} [] [])
    = (Raise TypeError,
       world_of {[ mode_register "/1/15" := "abc" ]} []
         [{| msg := "Invalid preset mode for %s, setting as None.";
             args := ["/1/15"] |}]) /\
  B.current_temperature (B.__init__ heating_circuit) (world_of no_current_register [] [])
    = (Ok (Float (S754_finite true 4503599627370496 (-52))),
       world_of no_current_register [] []) /\
  U.current_temperature (U.__init__ heating_circuit) (world_of no_current_register [] [])
    = (Ok (Float (S754_zero false)), world_of no_current_register [] []).
Proof. repeat split; vm_compute; reflexivity. Qed.

(** ** With and without bias *)

(** The readings of a room at 21.5 degrees with a bias of 1.0: 20.5 with
    bias, 21.5 without. *)
Example biased_room_current_temperature :
  B.current_temperature (B.__init__ heating_circuit) (world_of biased_room [] [])
    = (Ok (Float (S754_finite false 5770237022568448 (-48))), world_of biased_room [] []) /\
  U.current_temperature (U.__init__ heating_circuit) (world_of biased_room [] [])
    = (Ok (Float (S754_finite false 6051711999279104 (-48))), world_of biased_room [] []).
Proof. split; vm_compute; reflexivity. Qed.

Example unbiased_room_temperatures_agree :
  B.current_temperature (B.__init__ heating_circuit) (world_of unbiased_room [] [])
    = U.current_temperature (U.__init__ heating_circuit) (world_of unbiased_room [] []) /\
  B.target_temperature (B.__init__ heating_circuit) (world_of unbiased_room [] [])
    = U.target_temperature (U.__init__ heating_circuit) (world_of unbiased_room [] []).
Proof. split; vm_compute; reflexivity. Qed.

(** With no bias register the two classes read the same current
    temperature, and the same target temperature whenever the target
    register is present. *)
Lemma temperatures_agree_without_bias (info : device_info) (st : gmap string string)
    (rq : list request) (ws : list log_record) :
  st !! bias_register (info_prefix info) = None ->
  B.current_temperature (B.__init__ info) (world_of st rq ws)
    = U.current_temperature (U.__init__ info) (world_of st rq ws) /\
  (is_Some (st !! target_register (info_prefix info)) ->
   B.target_temperature (B.__init__ info) (world_of st rq ws)
     = U.target_temperature (U.__init__ info) (world_of st rq ws)).
Proof.
  intros Eb. split.
  - rewrite current_temperature_run, nobias_current_temperature_run.
    rewrite (float_missing (oids_of (world_of st rq ws))
               (bias_register (B._prefix (B.__init__ info))) Eb).
    change (oids_of (world_of st rq ws)) with st.
    cbn [B.__init__ B._prefix U.__init__ U._prefix].
    destruct (float _) as [x|e]; [now rewrite float_sub_zero | reflexivity].
  - intros [s Es]. rewrite target_temperature_run, nobias_target_temperature_run.
    rewrite (float_missing (oids_of (world_of st rq ws))
               (bias_register (B._prefix (B.__init__ info))) Eb).
    change (oids_of (world_of st rq ws)) with st.
    cbn [B.__init__ B._prefix U.__init__ U._prefix].
    unfold dict_get. rewrite Es.
    destruct (float _) as [x|e]; [now rewrite float_sub_zero | reflexivity].
Qed.

(** C4 fails on a store that holds neither the bias register nor the target
    register: with bias the target temperature is [0.0 - 0.0 = 0.0] and
    nothing is logged; without bias the lookup has no default, [float(None)]
    raises [TypeError], and the target temperature is absent with one
    warning. *)
Theorem target_temperature_differs_without_target_register (info : device_info)
    (rq : list request) (ws : list log_record) :
  (∅ : gmap string string) !! bias_register (info_prefix info) = None /\
  B.target_temperature (B.__init__ info) (world_of ∅ rq ws)
    = (Ok (Float (S754_zero false)), world_of ∅ rq ws) /\
  U.target_temperature (U.__init__ info) (world_of ∅ rq ws)
    = (Ok None_,
       with_warning (world_of ∅ rq ws)
         {| msg := "Invalid target temperature value for %s, setting as None.";
            args := [info_prefix info] |}).
Proof.
  split; [apply lookup_empty|]. split.
  - rewrite target_temperature_run.
    change (oids_of (world_of ∅ rq ws)) with (∅ : gmap string string).
    unfold dict_get. now rewrite !lookup_empty.
  - rewrite nobias_target_temperature_run. unfold dict_get.
    now rewrite lookup_empty.
Qed.

(** C8, as stated, fails: with no register at all, the target temperature
    without bias does not raise, it is absent with one warning; and the
    current temperature without bias is not absent, it is [0.0]. *)
Lemma missing_target_register_is_caught :
  U.target_temperature (U.__init__ heating_circuit) (world_of ∅ [] [])
    = (Ok None_,
       world_of ∅ []
         [{| msg := "Invalid target temperature value for %s, setting as None.";
             args := ["/1/15"] |}]) /\
  U.current_temperature (U.__init__ heating_circuit) (world_of ∅ [] [])
    = (Ok (Float (S754_zero false)), world_of ∅ [] []).
Proof. split; vm_compute; reflexivity. Qed.

(** C8, as the code has it.  Without bias, [target_temperature] looks the
    target register [prefix/0/1/1/0] up with no default: on every store
    missing it the lookup gives [None], [float(None)] raises [TypeError],
    and the property catches it, logs one warning and returns the absent
    value.  [current_temperature] passes the default ["0"]: on every store
    missing the current register [prefix/0/0/1/0] it returns [0.0] and logs
    nothing. *)
Theorem nobias_missing_registers (info : device_info) (st : gmap string string)
    (rq : list request) (ws : list log_record) :
  (st !! target_register (info_prefix info) = None ->
   get_method (Some st) (target_register (info_prefix info)) None_ = Ok None_ /\
   float None_ = Raise TypeError /\
   U.target_temperature (U.__init__ info) (world_of st rq ws)
     = (Ok None_,
        with_warning (world_of st rq ws)
          {| msg := "Invalid target temperature value for %s, setting as None.";
             args := [info_prefix info] |})) /\
  (st !! current_register (info_prefix info) = None ->
   U.current_temperature (U.__init__ info) (world_of st rq ws)
     = (Ok (Float (S754_zero false)), world_of st rq ws)).
Proof.
  split.
  - intros E. repeat split.
    + cbn [get_method]. unfold dict_get. now rewrite E.
    + rewrite nobias_target_temperature_run. unfold dict_get.
      cbn [U.__init__ U._prefix]. now rewrite E.
  - intros E. rewrite nobias_current_temperature_run.
    now rewrite (float_missing st (current_register (U._prefix (U.__init__ info))) E).
Qed.

Lemma nobias_missing_registers_witness :
  U.target_temperature (U.__init__ heating_circuit) (world_of ∅ [] [])
    = (Ok None_,
       with_warning (world_of ∅ [] [])
         {| msg := "Invalid target temperature value for %s, setting as None.";
            args := ["/1/15"] |}) /\
  U.current_temperature (U.__init__ heating_circuit) (world_of ∅ [] [])
    = (Ok (Float (S754_zero false)), world_of ∅ [] []).
Proof.
  destruct (nobias_missing_registers heating_circuit ∅ [] []) as [Ht Hc].
  split.
  - apply Ht. vm_compute. reflexivity.
  - apply Hc. vm_compute. reflexivity.
Defined.

(** * Further properties of the module *)

(** ** The two classes share their mode and preset code *)

Lemma nobias_raw_custom_temp_remaining_time_same (info : device_info) (w : world) :
  U.raw_custom_temp_remaining_time (U.__init__ info) w
    = B.raw_custom_temp_remaining_time (B.__init__ info) w.
Proof. reflexivity. Qed.

Lemma nobias_raw_preset_mode_same (info : device_info) (w : world) :
  U.raw_preset_mode (U.__init__ info) w = B.raw_preset_mode (B.__init__ info) w.
Proof. reflexivity. Qed.

Lemma nobias_raw_selected_mode_same (info : device_info) (w : world) :
  U.raw_selected_mode (U.__init__ info) w = B.raw_selected_mode (B.__init__ info) w.
Proof. reflexivity. Qed.

Lemma nobias_hvac_action_same (info : device_info) (w : world) :
  U.hvac_action (U.__init__ info) w = B.hvac_action (B.__init__ info) w.
Proof. reflexivity. Qed.

Lemma nobias_preset_mode_same (info : device_info) (w : world) :
  U.preset_mode (U.__init__ info) w = B.preset_mode (B.__init__ info) w.
Proof. reflexivity. Qed.

Lemma nobias_set_preset_mode_same `{Host} (info : device_info) (l : value) (w : world) :
  U.async_set_preset_mode (U.__init__ info) l w
    = B.async_set_preset_mode (B.__init__ info) l w.
Proof. reflexivity. Qed.

Lemma nobias_set_temperature_same `{Host} (info : device_info)
    (kwargs : gmap string value) (w : world) :
  U.async_set_temperature (U.__init__ info) kwargs w
    = B.async_set_temperature (B.__init__ info) kwargs w.
Proof. reflexivity. Qed.

(** X9. The class without bias duplicates the mode and preset code of the
    class with bias: on every world, the two entities of one device give
    the same result, log the same warnings and issue the same requests for
    [preset_mode], [hvac_action], the three raw accessors,
    [async_set_preset_mode], [async_set_temperature] and
    [async_set_hvac_mode]. *)
Theorem classes_share_mode_and_preset_code `{Host} (info : device_info) (w : world)
    (l : value) (kwargs : gmap string value) (mode : HVACMode) :
  U.preset_mode (U.__init__ info) w = B.preset_mode (B.__init__ info) w /\
  U.hvac_action (U.__init__ info) w = B.hvac_action (B.__init__ info) w /\
  U.raw_selected_mode (U.__init__ info) w = B.raw_selected_mode (B.__init__ info) w /\
  U.raw_custom_temp_remaining_time (U.__init__ info) w
    = B.raw_custom_temp_remaining_time (B.__init__ info) w /\
  U.raw_preset_mode (U.__init__ info) w = B.raw_preset_mode (B.__init__ info) w /\
  U.async_set_preset_mode (U.__init__ info) l w
    = B.async_set_preset_mode (B.__init__ info) l w /\
  U.async_set_temperature (U.__init__ info) kwargs w
    = B.async_set_temperature (B.__init__ info) kwargs w /\
  U.async_set_hvac_mode (U.__init__ info) mode w
    = B.async_set_hvac_mode (B.__init__ info) mode w.
Proof.
  split; [apply nobias_preset_mode_same|].
  split; [apply nobias_hvac_action_same|].
  split; [apply nobias_raw_selected_mode_same|].
  split; [apply nobias_raw_custom_temp_remaining_time_same|].
  split; [apply nobias_raw_preset_mode_same|].
  split; [apply nobias_set_preset_mode_same|].
  split; [apply nobias_set_temperature_same|].
  reflexivity.
Qed.

(** ** What a preset selection sends *)

Lemma set_preset_run `{Host} (info : device_info) (s : string) (w : world) :
  In s preset_labels ->
  B.async_set_preset_mode (B.__init__ info) (Str s) w
  = let w1 := {| data_oids := data_oids w;
                 requests := requests w ++ [Update (mode_register (info_prefix info)) s];
                 warnings := warnings w |} in
    match int (dict_get (oids_of w) (override_register (info_prefix info)) (Int 0)) with
    | Ok t =>
        if Z.ltb 0 t
        then (client_update (override_register (info_prefix info)) "0";;
              async_request_refresh) w1
        else async_request_refresh w1
    | Raise _ =>
        (Raise TypeError,
         with_warning w1
           {| msg := "Invalid custom temp remaining time for %s, setting as None.";
              args := [info_prefix info] |})
    end.
Proof.
  intros Hs. destruct (index_of_label s Hs) as (i & Ei & Es & _).
  unfold B.async_set_preset_mode. run_monad.
  cbn [B.__init__ B._preset_modes B._prefix]. fold preset_labels. rewrite Ei.
  cbn [str]. rewrite Es. rewrite raw_custom_temp_remaining_time_run.
  cbn [B._prefix B.__init__].
  change (oids_of {| data_oids := data_oids w;
                     requests := requests w ++ [Update (info_prefix info +:+ "/0/3/50/0") s];
                     warnings := warnings w |}) with (oids_of w).
  unfold override_register, mode_register.
  destruct (int _) as [t|e]; cbn [gt]; [|reflexivity].
  destruct (Z.ltb 0 t); reflexivity.
Qed.

(** X1. Selecting a label of the fixed set while the override register
    of the snapshot reads as an integer [t] (the default 0 when the
    register or the whole [oids] entry is missing) returns normally, logs
    nothing and issues exactly: the write of the label to the mode
    register; then, only if [t > 0], the write of ["0"] to the override
    register; then the refresh request.  Both classes. *)
Theorem set_preset_requests `{Host} (info : device_info) (s : string) (w : world) (t : Z) :
  In s preset_labels ->
  int (dict_get (oids_of w) (override_register (info_prefix info)) (Int 0)) = Ok t ->
  (exists w',
     B.async_set_preset_mode (B.__init__ info) (Str s) w = (Ok tt, w') /\
     issued w w'
       (Update (mode_register (info_prefix info)) s
        :: (if Z.ltb 0 t then [Update (override_register (info_prefix info)) "0"] else [])
        ++ [RequestRefresh])) /\
  (exists w',
     U.async_set_preset_mode (U.__init__ info) (Str s) w = (Ok tt, w') /\
     issued w w'
       (Update (mode_register (info_prefix info)) s
        :: (if Z.ltb 0 t then [Update (override_register (info_prefix info)) "0"] else [])
        ++ [RequestRefresh])).
Proof.
  intros Hs Et. rewrite nobias_set_preset_mode_same.
  assert (G : exists w',
     B.async_set_preset_mode (B.__init__ info) (Str s) w = (Ok tt, w') /\
     issued w w'
       (Update (mode_register (info_prefix info)) s
        :: (if Z.ltb 0 t then [Update (override_register (info_prefix info)) "0"] else [])
        ++ [RequestRefresh])).
  { rewrite (set_preset_run info s w Hs), Et. cbv zeta.
    destruct (Z.ltb 0 t); eexists; (split; [reflexivity|]); unfold issued; run_monad;
      rewrite <- !app_assoc; split; reflexivity. }
  split; exact G.
Qed.

Lemma set_preset_requests_witness :
  (exists w',
     B.async_set_preset_mode (H := still_host) (B.__init__ heating_circuit) (Str "3")
       (world_of override_running [] []) = (Ok tt, w') /\
     issued (world_of override_running [] []) w'
       [Update (mode_register "/1/15") "3"; Update (override_register "/1/15") "0";
        RequestRefresh]) /\
  (exists w',
     U.async_set_preset_mode (H := still_host) (U.__init__ heating_circuit) (Str "3")
       (world_of override_running [] []) = (Ok tt, w') /\
     issued (world_of override_running [] []) w'
       [Update (mode_register "/1/15") "3"; Update (override_register "/1/15") "0";
        RequestRefresh]).
Proof.
  apply (set_preset_requests (H := still_host) heating_circuit "3"
           (world_of override_running [] []) 120).
  - vm_compute. tauto.
  - vm_compute. reflexivity.
Defined.

(** X2. Selecting a label of the fixed set while the override register
    holds malformed text (ASCII text that [int] rejects) leaves the command
    half done: the label has
    already been written to the mode register, the accessor logs its
    warning, and the comparison of [None] with 0 raises [TypeError]; no
    refresh is requested.  Both classes. *)
Theorem set_preset_half_done_on_malformed_override `{Host} (info : device_info)
    (s : string) (w : world) :
  In s preset_labels ->
  malformed_int (oids_of w) (override_register (info_prefix info)) ->
  (exists w',
     B.async_set_preset_mode (B.__init__ info) (Str s) w = (Raise TypeError, w') /\
     data_oids w' = data_oids w /\
     requests w' = requests w ++ [Update (mode_register (info_prefix info)) s] /\
     warnings w'
       = warnings w
         ++ [{| msg := "Invalid custom temp remaining time for %s, setting as None.";
                args := [info_prefix info] |}]) /\
  (exists w',
     U.async_set_preset_mode (U.__init__ info) (Str s) w = (Raise TypeError, w') /\
     data_oids w' = data_oids w /\
     requests w' = requests w ++ [Update (mode_register (info_prefix info)) s] /\
     warnings w'
       = warnings w
         ++ [{| msg := "Invalid custom temp remaining time for %s, setting as None.";
                args := [info_prefix info] |}]).
Proof.
  intros Hs Hm. rewrite nobias_set_preset_mode_same.
  rewrite (set_preset_run info s w Hs), (malformed_int_raises _ _ Hm). cbv zeta.
  split; eexists; (split; [reflexivity|]); repeat split.
Qed.

Lemma set_preset_half_done_on_malformed_override_witness :
  exists w',
    B.async_set_preset_mode (H := still_host) (B.__init__ heating_circuit) (Str "3")
      (world_of garbled_override [] []) = (Raise TypeError, w') /\
    requests w' = [Update (mode_register "/1/15") "3"].
Proof.
  destruct (set_preset_half_done_on_malformed_override (H := still_host) heating_circuit "3"
              (world_of garbled_override [] [])) as [(w' & E & _ & Hr & _) _].
  - vm_compute. tauto.
  - exists "abc". repeat split; vm_compute; reflexivity.
  - exists w'. split; [exact E | exact Hr].
Defined.

(** ** The preset reading, in full *)

Lemma preset_mode_run (info : device_info) (w : world) :
  B.preset_mode (B.__init__ info) w
  = match int (dict_get (oids_of w) (override_register (info_prefix info)) (Int 0)) with
    | Ok t =>
        if Z.ltb 0 t then (getitem preset_labels (Int 7), w)
        else
          match int (dict_get (oids_of w) (mode_register (info_prefix info)) (Int 0)) with
          | Ok m => (getitem preset_labels (Int m), w)
          | Raise _ =>
              (Raise TypeError,
               with_warning w
                 {| msg := "Invalid preset mode for %s, setting as None.";
                    args := [info_prefix info] |})
          end
    | Raise _ =>
        (Raise TypeError,
         with_warning w
           {| msg := "Invalid custom temp remaining time for %s, setting as None.";
              args := [info_prefix info] |})
    end.
Proof.
  unfold B.preset_mode. run_monad. rewrite raw_custom_temp_remaining_time_run.
  cbn [B.__init__ B._prefix B._preset_modes]. fold preset_labels.
  destruct (int _) as [t|e]; cbn [gt]; [|reflexivity].
  destruct (Z.ltb 0 t); [reflexivity|].
  rewrite raw_preset_mode_run. cbn [B.__init__ B._prefix].
  destruct (int _) as [m|e]; reflexivity.
Qed.

(** Subscription of the label list by any integer. *)
Lemma getitem_preset_labels (m : Z) :
  (0 <= m <= 7 -> getitem preset_labels (Int m) = Ok (str_of_int m)) /\
  (-8 <= m <= -1 -> getitem preset_labels (Int m) = Ok (str_of_int (m + 8))) /\
  (m < -8 \/ 7 < m -> getitem preset_labels (Int m) = Raise IndexError).
Proof.
  split; [|split].
  - intros Hm.
    assert (E : m = 0 \/ m = 1 \/ m = 2 \/ m = 3 \/ m = 4 \/ m = 5 \/ m = 6 \/ m = 7) by lia.
    repeat (destruct E as [-> | E]; [reflexivity|]). now subst.
  - intros Hm.
    assert (E : m = -8 \/ m = -7 \/ m = -6 \/ m = -5 \/ m = -4 \/ m = -3 \/ m = -2 \/ m = -1)
      by lia.
    repeat (destruct E as [-> | E]; [reflexivity|]). now subst.
  - intros [Hm | Hm]; unfold getitem.
    + assert (E1 : Z.ltb m 0 = true) by (apply Z.ltb_lt; lia). rewrite E1.
      assert (E2 : Z.ltb (m + Z.of_nat (length preset_labels)) 0 = true)
        by (apply Z.ltb_lt; cbn; lia).
      now rewrite E2.
    + assert (E1 : Z.ltb m 0 = false) by (apply Z.ltb_ge; lia). rewrite E1, E1.
      assert (E2 : nth_error preset_labels (Z.to_nat m) = None)
        by (apply nth_error_None; cbn; lia).
      now rewrite E2.
Qed.

Lemma getitem_preset_labels_member (m : Z) (s : string) :
  getitem preset_labels (Int m) = Ok s -> In s preset_labels.
Proof.
  destruct (getitem_preset_labels m) as (H1 & H2 & H3).
  destruct (Z_lt_le_dec m (-8)) as [L|L]; [rewrite H3 by lia; discriminate|].
  destruct (Z_lt_le_dec 7 m) as [G|G]; [rewrite H3 by lia; discriminate|].
  destruct (Z_lt_le_dec m 0) as [N|N].
  - assert (E : m = -8 \/ m = -7 \/ m = -6 \/ m = -5 \/ m = -4 \/ m = -3 \/ m = -2 \/ m = -1)
      by lia.
    repeat (destruct E as [-> | E]; [intros [= <-]; vm_compute; tauto|]).
    subst. intros [= <-]; vm_compute; tauto.
  - assert (E : m = 0 \/ m = 1 \/ m = 2 \/ m = 3 \/ m = 4 \/ m = 5 \/ m = 6 \/ m = 7) by lia.
    repeat (destruct E as [-> | E]; [intros [= <-]; vm_compute; tauto|]).
    subst. intros [= <-]; vm_compute; tauto.
Qed.

Lemma getitem_preset_labels_error (m : Z) (e : exn) :
  getitem preset_labels (Int m) = Raise e -> e = IndexError.
Proof.
  unfold getitem.
  repeat match goal with
         | |- context [if ?b then _ else _] => destruct b
         | |- context [nth_error ?l ?n] => destruct (nth_error l n)
         end; congruence.
Qed.

(** X3. With no override running (the override register reads as an
    integer [t <= 0]) and the mode register reading as the integer [m],
    [preset_mode] subscripts the eight labels with [m] as Python does: for
    [0 <= m <= 7] it returns the decimal string of [m]; a negative [m]
    down to -8 counts from the end and returns the decimal string of
    [m + 8]; any other [m] raises [IndexError].  Nothing is logged.  Both
    classes. *)
Theorem preset_mode_subscript (info : device_info) (w : world) (t m : Z) :
  int (dict_get (oids_of w) (override_register (info_prefix info)) (Int 0)) = Ok t ->
  t <= 0 ->
  int (dict_get (oids_of w) (mode_register (info_prefix info)) (Int 0)) = Ok m ->
  (0 <= m <= 7 ->
     B.preset_mode (B.__init__ info) w = (Ok (str_of_int m), w) /\
     U.preset_mode (U.__init__ info) w = (Ok (str_of_int m), w)) /\
  (-8 <= m <= -1 ->
     B.preset_mode (B.__init__ info) w = (Ok (str_of_int (m + 8)), w) /\
     U.preset_mode (U.__init__ info) w = (Ok (str_of_int (m + 8)), w)) /\
  (m < -8 \/ 7 < m ->
     B.preset_mode (B.__init__ info) w = (Raise IndexError, w) /\
     U.preset_mode (U.__init__ info) w = (Raise IndexError, w)).
Proof.
  intros Et Ht Em. rewrite nobias_preset_mode_same, preset_mode_run, Et, Em.
  apply Z.ltb_ge in Ht. rewrite Ht.
  destruct (getitem_preset_labels m) as (H1 & H2 & H3).
  split; [|split]; intros Hm.
  - rewrite (H1 Hm). now split.
  - rewrite (H2 Hm). now split.
  - rewrite (H3 Hm). now split.
Qed.

Lemma preset_mode_subscript_witness :
  B.preset_mode (B.__init__ heating_circuit) (world_of comfort_mode [] [])
    = (Ok "3", world_of comfort_mode [] []) /\
  B.preset_mode (B.__init__ heating_circuit) (world_of mode_minus_one [] [])
    = (Ok "7", world_of mode_minus_one [] []) /\
  U.preset_mode (U.__init__ heating_circuit) (world_of mode_nine [] [])
    = (Raise IndexError, world_of mode_nine [] []).
Proof.
  split; [|split].
  - apply (proj1 (preset_mode_subscript heating_circuit (world_of comfort_mode [] []) 0 3
                    ltac:(vm_compute; reflexivity) ltac:(lia)
                    ltac:(vm_compute; reflexivity))).
    lia.
  - apply (proj1 (proj2 (preset_mode_subscript heating_circuit
                           (world_of mode_minus_one [] []) 0 (-1)
                           ltac:(vm_compute; reflexivity) ltac:(lia)
                           ltac:(vm_compute; reflexivity)))).
    lia.
  - apply (proj2 (proj2 (preset_mode_subscript heating_circuit
                           (world_of mode_nine [] []) 0 9
                           ltac:(vm_compute; reflexivity) ltac:(lia)
                           ltac:(vm_compute; reflexivity)))).
    lia.
Defined.

Lemma not_warned_self (w : world) : warned_once w w -> False.
Proof.
  intros [r E]. apply (f_equal warnings) in E. cbn in E.
  apply (f_equal (@length _)) in E. rewrite length_app in E. cbn in E. lia.
Qed.

(** X4. On every world (also one without an [oids] entry) [preset_mode]
    of either class leaves the snapshot and the requests as they were and
    logs at most one warning.  When it returns, the label is one of the
    eight preset labels and nothing was logged.  When it raises, the
    exception is [TypeError] or [IndexError], and it is [TypeError]
    exactly when a warning was logged, that is when an accessor met
    malformed text. *)
Theorem preset_mode_invariants (info : device_info) (w : world) :
  exists r w',
    B.preset_mode (B.__init__ info) w = (r, w') /\
    U.preset_mode (U.__init__ info) w = (r, w') /\
    same_device w w' /\
    (w' = w \/ warned_once w w') /\
    (forall s, r = Ok s -> In s preset_labels /\ w' = w) /\
    (forall e, r = Raise e -> e = TypeError \/ e = IndexError) /\
    (r = Raise TypeError <-> warned_once w w').
Proof.
  rewrite nobias_preset_mode_same, preset_mode_run.
  assert (G : forall m, exists r w',
    (getitem preset_labels (Int m), w) = (r, w') /\
    (getitem preset_labels (Int m), w) = (r, w') /\
    same_device w w' /\
    (w' = w \/ warned_once w w') /\
    (forall s, r = Ok s -> In s preset_labels /\ w' = w) /\
    (forall e, r = Raise e -> e = TypeError \/ e = IndexError) /\
    (r = Raise TypeError <-> warned_once w w')).
  { intros m. exists (getitem preset_labels (Int m)), w.
    split; [reflexivity|]. split; [reflexivity|]. split; [split; reflexivity|].
    split; [now left|].
    split; [intros s E; split; [eapply getitem_preset_labels_member, E | reflexivity]|].
    split; [intros e E; right; eapply getitem_preset_labels_error, E|].
    split.
    - intros E. apply getitem_preset_labels_error in E. discriminate E.
    - intros Hw. now apply not_warned_self in Hw. }
  assert (W : forall rec, exists r w',
    (Raise TypeError, with_warning w rec) = (r, w') /\
    (@Raise string TypeError, with_warning w rec) = (r, w') /\
    same_device w w' /\
    (w' = w \/ warned_once w w') /\
    (forall s, r = Ok s -> In s preset_labels /\ w' = w) /\
    (forall e, r = Raise e -> e = TypeError \/ e = IndexError) /\
    (r = Raise TypeError <-> warned_once w w')).
  { intros rec. exists (Raise TypeError), (with_warning w rec).
    split; [reflexivity|]. split; [reflexivity|]. split; [split; reflexivity|].
    split; [right; now exists rec|].
    split; [intros s E; discriminate E|].
    split; [intros e [= <-]; now left|].
    split; [intros _; now exists rec | reflexivity]. }
  destruct (int _) as [t|e]; [|apply W].
  destruct (Z.ltb 0 t); [apply G|].
  destruct (int _) as [m|e]; [apply G | apply W].
Qed.

(** ** Bias arithmetic and what each reading depends on *)

Lemma float_present (st : gmap string string) (key : string) (z : spec_float) :
  float (dict_get st key None_) = Ok z -> float (dict_get st key (Str "0")) = Ok z.
Proof. unfold dict_get. destruct (st !! key); [auto | discriminate]. Qed.

(** X5. When the bias register reads as the float [y] (["0"] when it is
    missing), the reading with bias is the reading without bias minus [y],
    in binary64 arithmetic: for the current temperature whenever the
    current register reads as a float [x], and for the target temperature
    whenever the target register is present and reads as a float [z].
    Nothing is logged. *)
Theorem bias_is_subtracted (info : device_info) (st : gmap string string)
    (rq : list request) (ws : list log_record) (y : spec_float) :
  float (dict_get st (bias_register (info_prefix info)) (Str "0")) = Ok y ->
  (forall x,
     float (dict_get st (current_register (info_prefix info)) (Str "0")) = Ok x ->
     U.current_temperature (U.__init__ info) (world_of st rq ws)
       = (Ok (Float x), world_of st rq ws) /\
     B.current_temperature (B.__init__ info) (world_of st rq ws)
       = (Ok (Float (float_sub x y)), world_of st rq ws)) /\
  (forall z,
     float (dict_get st (target_register (info_prefix info)) None_) = Ok z ->
     U.target_temperature (U.__init__ info) (world_of st rq ws)
       = (Ok (Float z), world_of st rq ws) /\
     B.target_temperature (B.__init__ info) (world_of st rq ws)
       = (Ok (Float (float_sub z y)), world_of st rq ws)).
Proof.
  intros Ey. split.
  - intros x Ex. split.
    + rewrite nobias_current_temperature_run. cbn [U.__init__ U._prefix]. now rewrite Ex.
    + rewrite current_temperature_run.
      change (oids_of (world_of st rq ws)) with st. cbn [B.__init__ B._prefix].
      now rewrite Ex, Ey.
  - intros z Ez. split.
    + rewrite nobias_target_temperature_run. cbn [U.__init__ U._prefix]. now rewrite Ez.
    + rewrite target_temperature_run.
      change (oids_of (world_of st rq ws)) with st. cbn [B.__init__ B._prefix].
      now rewrite (float_present _ _ _ Ez), Ey.
Qed.

Lemma bias_is_subtracted_witness :
  (U.current_temperature (U.__init__ heating_circuit) (world_of biased_room [] [])
     = (Ok (Float (S754_finite false 6051711999279104 (-48))), world_of biased_room [] []) /\
   B.current_temperature (B.__init__ heating_circuit) (world_of biased_room [] [])
     = (Ok (Float (float_sub (S754_finite false 6051711999279104 (-48))
                             (S754_finite false 4503599627370496 (-52)))),
        world_of biased_room [] [])) /\
  (U.target_temperature (U.__init__ heating_circuit) (world_of biased_room [] [])
     = (Ok (Float (S754_finite false 6192449487634432 (-48))), world_of biased_room [] []) /\
   B.target_temperature (B.__init__ heating_circuit) (world_of biased_room [] [])
     = (Ok (Float (float_sub (S754_finite false 6192449487634432 (-48))
                             (S754_finite false 4503599627370496 (-52)))),
        world_of biased_room [] [])).
Proof.
  destruct (bias_is_subtracted heating_circuit biased_room [] []
              (S754_finite false 4503599627370496 (-52))
              ltac:(vm_compute; reflexivity)) as [Hc Ht].
  split.
  - apply Hc. vm_compute. reflexivity.
  - apply Ht. vm_compute. reflexivity.
Defined.

Lemma register_suffix_differs (p a b : string) : a <> b -> p +:+ a <> p +:+ b.
Proof. intros Hab E. apply Hab. eapply append_inv_head, E. Qed.

Lemma dict_get_agree (st st' : gmap string string) (key : string) (d : value) :
  st !! key = st' !! key -> dict_get st key d = dict_get st' key d.
Proof. intros E. unfold dict_get. now rewrite E. Qed.

(** X6. Each temperature property reads only the registers it names: two
    stores that agree on the current (resp. target) register and, with
    bias, on the bias register give the same value and the same warnings.
    In particular no write to the bias register changes what the class
    without bias reports. *)
Theorem temperatures_read_their_registers_only (info : device_info)
    (st st' : gmap string string) (rq rq' : list request) (ws : list log_record) :
  (st !! current_register (info_prefix info) = st' !! current_register (info_prefix info) ->
   st !! bias_register (info_prefix info) = st' !! bias_register (info_prefix info) ->
   outcome (B.current_temperature (B.__init__ info)) (world_of st rq ws)
     = outcome (B.current_temperature (B.__init__ info)) (world_of st' rq' ws)) /\
  (st !! target_register (info_prefix info) = st' !! target_register (info_prefix info) ->
   st !! bias_register (info_prefix info) = st' !! bias_register (info_prefix info) ->
   outcome (B.target_temperature (B.__init__ info)) (world_of st rq ws)
     = outcome (B.target_temperature (B.__init__ info)) (world_of st' rq' ws)) /\
  (st !! current_register (info_prefix info) = st' !! current_register (info_prefix info) ->
   outcome (U.current_temperature (U.__init__ info)) (world_of st rq ws)
     = outcome (U.current_temperature (U.__init__ info)) (world_of st' rq' ws)) /\
  (st !! target_register (info_prefix info) = st' !! target_register (info_prefix info) ->
   outcome (U.target_temperature (U.__init__ info)) (world_of st rq ws)
     = outcome (U.target_temperature (U.__init__ info)) (world_of st' rq' ws)) /\
  (forall v,
     outcome (U.current_temperature (U.__init__ info))
       (world_of (<[bias_register (info_prefix info) := v]> st) rq ws)
       = outcome (U.current_temperature (U.__init__ info)) (world_of st rq ws) /\
     outcome (U.target_temperature (U.__init__ info))
       (world_of (<[bias_register (info_prefix info) := v]> st) rq ws)
       = outcome (U.target_temperature (U.__init__ info)) (world_of st rq ws)).
Proof.
  assert (Uc : forall s s' q q',
    s !! current_register (info_prefix info) = s' !! current_register (info_prefix info) ->
    outcome (U.current_temperature (U.__init__ info)) (world_of s q ws)
      = outcome (U.current_temperature (U.__init__ info)) (world_of s' q' ws)).
  { intros s s' q q' E. eapply outcome_float_reading; [reflexivity | |].
    - apply nobias_current_temperature_run.
    - rewrite nobias_current_temperature_run.
      now rewrite (dict_get_agree s s' _ _ E). }
  assert (Ut : forall s s' q q',
    s !! target_register (info_prefix info) = s' !! target_register (info_prefix info) ->
    outcome (U.target_temperature (U.__init__ info)) (world_of s q ws)
      = outcome (U.target_temperature (U.__init__ info)) (world_of s' q' ws)).
  { intros s s' q q' E. eapply outcome_float_reading; [reflexivity | |].
    - apply nobias_target_temperature_run.
    - rewrite nobias_target_temperature_run.
      now rewrite (dict_get_agree s s' _ _ E). }
  split; [|split; [|split; [|split]]].
  - intros E1 E2. eapply outcome_float_difference; [reflexivity | |].
    + apply current_temperature_run.
    + rewrite current_temperature_run.
      change (oids_of (world_of st rq ws)) with st.
      change (oids_of (world_of st' rq' ws)) with st'.
      now rewrite (dict_get_agree st st' _ _ E1), (dict_get_agree st st' _ _ E2).
  - intros E1 E2. eapply outcome_float_difference; [reflexivity | |].
    + apply target_temperature_run.
    + rewrite target_temperature_run.
      change (oids_of (world_of st rq ws)) with st.
      change (oids_of (world_of st' rq' ws)) with st'.
      now rewrite (dict_get_agree st st' _ _ E1), (dict_get_agree st st' _ _ E2).
  - apply Uc.
  - apply Ut.
  - intros v. split.
    + apply Uc. apply lookup_insert_ne.
      apply register_suffix_differs. discriminate.
    + apply Ut. apply lookup_insert_ne.
      apply register_suffix_differs. discriminate.
Qed.

Lemma temperatures_read_their_registers_only_witness :
  outcome (U.current_temperature (U.__init__ heating_circuit)) (world_of unbiased_room [] [])
    = outcome (U.current_temperature (U.__init__ heating_circuit)) (world_of biased_room [] []) /\
  outcome (B.target_temperature (B.__init__ heating_circuit)) (world_of biased_room [] [])
    = outcome (B.target_temperature (B.__init__ heating_circuit))
        (world_of (<[current_register "/1/15" := "abc"]> biased_room) [RequestRefresh] []).
Proof.
  split.
  - apply (proj1 (proj2 (proj2 (temperatures_read_their_registers_only heating_circuit
                                   unbiased_room biased_room [] [] [])))).
    vm_compute. reflexivity.
  - apply (proj1 (proj2 (temperatures_read_their_registers_only heating_circuit
                           biased_room (<[current_register "/1/15" := "abc"]> biased_room)
                           [] [RequestRefresh] []))).
    + vm_compute. reflexivity.
    + vm_compute. reflexivity.
Defined.

(** X7. [hvac_action] reads the mode register only, and [preset_mode]
    the mode and override registers only: two stores that agree on these
    registers give the same result (value or exception) and the same
    warnings, whatever else they hold and whatever has been requested.
    Both classes. *)
Theorem preset_and_action_read_their_registers_only (info : device_info)
    (st st' : gmap string string) (rq rq' : list request) (ws : list log_record) :
  st !! mode_register (info_prefix info) = st' !! mode_register (info_prefix info) ->
  (outcome (B.hvac_action (B.__init__ info)) (world_of st rq ws)
     = outcome (B.hvac_action (B.__init__ info)) (world_of st' rq' ws) /\
   outcome (U.hvac_action (U.__init__ info)) (world_of st rq ws)
     = outcome (U.hvac_action (U.__init__ info)) (world_of st' rq' ws)) /\
  (st !! override_register (info_prefix info) = st' !! override_register (info_prefix info) ->
   outcome (B.preset_mode (B.__init__ info)) (world_of st rq ws)
     = outcome (B.preset_mode (B.__init__ info)) (world_of st' rq' ws) /\
   outcome (U.preset_mode (U.__init__ info)) (world_of st rq ws)
     = outcome (U.preset_mode (U.__init__ info)) (world_of st' rq' ws)).
Proof.
  intros Em. split.
  - unfold outcome. rewrite !nobias_hvac_action_same, !hvac_action_full_run.
    change (oids_of (world_of st rq ws)) with st.
    change (oids_of (world_of st' rq' ws)) with st'.
    rewrite (dict_get_agree st st' _ _ Em).
    destruct (int _); split; reflexivity.
  - intros Eo. unfold outcome. rewrite !nobias_preset_mode_same, !preset_mode_run.
    change (oids_of (world_of st rq ws)) with st.
    change (oids_of (world_of st' rq' ws)) with st'.
    rewrite (dict_get_agree st st' _ _ Em), (dict_get_agree st st' _ _ Eo).
    destruct (int _) as [t|e]; [|split; reflexivity].
    destruct (Z.ltb 0 t); [split; reflexivity|].
    destruct (int _); split; reflexivity.
Qed.

Lemma preset_and_action_read_their_registers_only_witness :
  outcome (B.hvac_action (B.__init__ heating_circuit)) (world_of comfort_mode [] [])
    = outcome (B.hvac_action (B.__init__ heating_circuit))
        (world_of (<[bias_register "/1/15" := "abc"]> comfort_mode) [RequestRefresh] []) /\
  outcome (U.preset_mode (U.__init__ heating_circuit)) (world_of comfort_mode [] [])
    = outcome (U.preset_mode (U.__init__ heating_circuit))
        (world_of (<[bias_register "/1/15" := "abc"]> comfort_mode) [RequestRefresh] []).
Proof.
  destruct (preset_and_action_read_their_registers_only heating_circuit comfort_mode
              (<[bias_register "/1/15" := "abc"]> comfort_mode) [] [RequestRefresh] [])
    as [[Ha _] Hp].
  - vm_compute. reflexivity.
  - split; [exact Ha|]. apply Hp. vm_compute. reflexivity.
Defined.

(** X8. When the coordinator's data has no [oids] entry at all, the class
    with bias reads through its [{}] default: both temperatures are [0.0],
    the action is [OFF] and the preset is ["0"], with nothing logged.  The
    class without bias looks [oids] up with no default for its temperatures:
    both raise [AttributeError], which their [except] clause does not
    catch, and nothing is logged; its action and preset still read [OFF]
    and ["0"]. *)
Theorem readings_without_oids_entry (info : device_info) (rq : list request)
    (ws : list log_record) :
  let w := {| data_oids := None; requests := rq; warnings := ws |} in
  B.current_temperature (B.__init__ info) w = (Ok (Float (S754_zero false)), w) /\
  B.target_temperature (B.__init__ info) w = (Ok (Float (S754_zero false)), w) /\
  U.current_temperature (U.__init__ info) w = (Raise AttributeError, w) /\
  U.target_temperature (U.__init__ info) w = (Raise AttributeError, w) /\
  B.hvac_action (B.__init__ info) w = (Ok OFF, w) /\
  U.hvac_action (U.__init__ info) w = (Ok OFF, w) /\
  B.preset_mode (B.__init__ info) w = (Ok "0", w) /\
  U.preset_mode (U.__init__ info) w = (Ok "0", w).
Proof.
  intros w.
  split; [rewrite current_temperature_run; unfold dict_get, oids_of; cbn [w data_oids default];
          now rewrite !lookup_empty|].
  split; [rewrite target_temperature_run; unfold dict_get, oids_of; cbn [w data_oids default];
          now rewrite !lookup_empty|].
  split; [reflexivity|]. split; [reflexivity|].
  rewrite nobias_hvac_action_same, nobias_preset_mode_same.
  rewrite hvac_action_full_run, preset_mode_run.
  unfold dict_get, oids_of; cbn [w data_oids default]. rewrite !lookup_empty.
  repeat split.
Qed.

(** ** Setting the platform up *)

Lemma async_setup_entry_climate (devices : list device_entry) :
  async_setup_entry devices = flat_map entities_of (climate_devices devices).
Proof.
  unfold async_setup_entry, climate_devices.
  induction devices as [|d ds IH]; [reflexivity|].
  cbn [flat_map List.filter]. rewrite IH.
  destruct (eq (entry_type d) (Str "climate")); reflexivity.
Qed.

(** X11. [async_setup_entry] builds entities for the climate devices and
    for nothing else: the entities added are, in the order of the device
    list, the entity with bias and then the entity without bias of every
    entry whose type equals ["climate"]; an entry of another type, or with
    no type, contributes none.  So twice as many entities are added as
    there are climate devices, and each of them belongs to a climate entry
    of the list. *)
Theorem setup_adds_two_entities_per_climate_device (devices : list device_entry) :
  async_setup_entry devices = flat_map entities_of (climate_devices devices) /\
  length (async_setup_entry devices) = (2 * length (climate_devices devices))%nat /\
  (forall e, In e (async_setup_entry devices) <->
     exists d, In d devices /\ entry_type d = Str "climate" /\
       (e = WithBias (B.__init__ (entry_info d)) \/
        e = WithoutBias (U.__init__ (entry_info d)))).
Proof.
  split; [apply async_setup_entry_climate|]. split.
  - rewrite async_setup_entry_climate.
    induction (climate_devices devices) as [|i rest IH]; [reflexivity|].
    cbn [flat_map entities_of length app]. rewrite IH. lia.
  - intros e. unfold async_setup_entry. rewrite in_flat_map. split.
    + intros (d & Hd & He). exists d. split; [exact Hd|].
      destruct (eq (entry_type d) (Str "climate")) eqn:Ed; [|destruct He].
      split.
      * destruct (entry_type d) as [| | |t]; try discriminate Ed.
        cbn in Ed. apply String.eqb_eq in Ed. now subst.
      * destruct He as [<- | [<- | []]]; auto.
    + intros (d & Hd & Et & He). exists d. split; [exact Hd|].
      rewrite Et. cbn [eq]. rewrite String.eqb_refl. cbn [entities_of In].
      destruct He as [-> | ->]; auto.
Qed.

Lemma length_string_append (a b : string) :
  String.length (a +:+ b) = (String.length a + String.length b)%nat.
Proof.
  induction a as [|c a IH]; [reflexivity|].
  change (S (String.length (a +:+ b)) = S (String.length a + String.length b)).
  now rewrite IH.
Qed.

Lemma append_inv_tail (a b s : string) : a +:+ s = b +:+ s -> a = b.
Proof.
  revert b. induction a as [|c a IH]; intros [|c' b] E.
  - reflexivity.
  - apply (f_equal String.length) in E. rewrite !length_string_append in E. cbn in E. lia.
  - apply (f_equal String.length) in E. rewrite !length_string_append in E. cbn in E. lia.
  - injection E as -> E. f_equal. now apply IH.
Qed.

Lemma append_nonempty_differs (a s : string) : s <> "" -> a <> a +:+ s.
Proof.
  intros Hs E. apply Hs. apply (f_equal String.length) in E.
  rewrite length_string_append in E. destruct s; [reflexivity | cbn in E; lia].
Qed.

Lemma unique_ids_of_climate (l : list device_info) :
  map entity_unique_id (flat_map entities_of l)
  = flat_map (fun i => [info_id i; info_id i +:+ "_nobias"]) l.
Proof. induction l as [|i l IH]; [reflexivity|]. cbn. now rewrite IH. Qed.

Lemma in_unique_ids (l : list device_info) (x : string) :
  In x (flat_map (fun i => [info_id i; info_id i +:+ "_nobias"]) l) ->
  exists i, In i l /\ (x = info_id i \/ x = info_id i +:+ "_nobias").
Proof.
  rewrite in_flat_map. intros (i & Hi & [<- | [<- | []]]); eauto.
Qed.

(** X12. The two entities of one device never share a unique id (the
    second is the first with [_nobias] appended), and the unique ids of all
    entities [async_setup_entry] adds are pairwise distinct provided the
    climate devices have pairwise distinct ids and no climate device's id
    is another's id followed by [_nobias]. *)
Theorem unique_ids_are_distinct (devices : list device_entry) :
  List.NoDup (map info_id (climate_devices devices)) ->
  (forall d d', In d (climate_devices devices) -> In d' (climate_devices devices) ->
     info_id d <> info_id d' +:+ "_nobias") ->
  (forall d, B.unique_id (B.__init__ d) <> U.unique_id (U.__init__ d)) /\
  List.NoDup (map entity_unique_id (async_setup_entry devices)).
Proof.
  intros Hnd Hsuffix. split.
  { intros d. cbn. apply append_nonempty_differs. discriminate. }
  rewrite async_setup_entry_climate, unique_ids_of_climate.
  induction (climate_devices devices) as [|i l IH]; [constructor|].
  cbn [flat_map app]. cbn [map] in Hnd. apply List.NoDup_cons_iff in Hnd as [Hi Hl].
  assert (IH' : List.NoDup (flat_map (fun i => [info_id i; info_id i +:+ "_nobias"]) l)).
  { apply IH; [exact Hl|]. intros d d' Hd Hd'. apply Hsuffix; now right. }
  constructor; [|constructor; [|exact IH']].
  - intros [E | Hin].
    + symmetry in E. revert E. apply append_nonempty_differs. discriminate.
    + apply in_unique_ids in Hin as (j & Hj & [E | E]).
      * apply Hi. rewrite E. now apply in_map.
      * revert E. apply Hsuffix; [now left | now right].
  - intros Hin. apply in_unique_ids in Hin as (j & Hj & [E | E]).
    + symmetry in E. revert E. apply Hsuffix; [now right | now left].
    + apply append_inv_tail in E. apply Hi. rewrite E. now apply in_map.
Qed.

Lemma unique_ids_are_distinct_witness :
  List.NoDup (map entity_unique_id (async_setup_entry boiler_room)).
Proof.
  apply (unique_ids_are_distinct boiler_room).
  - vm_compute. repeat constructor; intros H; vm_compute in H; intuition discriminate.
  - intros d d' Hd Hd'. vm_compute in Hd, Hd'.
    destruct Hd as [<- | [<- | []]], Hd' as [<- | [<- | []]]; discriminate.
Defined.

(** ** Arming and cancelling the override *)

Lemma apply_updates_app (rs rs' : list request) (st : gmap string string) :
  apply_updates (rs ++ rs') st = apply_updates rs' (apply_updates rs st).
Proof.
  revert st. induction rs as [|[k v|] rs IH]; intros st; cbn [app apply_updates]; auto.
Qed.

(** A label of the fixed set, read back from a register, selects itself. *)
Lemma label_round_trip (s : string) :
  In s preset_labels ->
  exists i, int (Str s) = Ok i /\ getitem preset_labels (Int i) = Ok s.
Proof.
  unfold preset_labels. cbn [In]. intros Hs.
  repeat (destruct Hs as [<- | Hs]; [eexists; split; vm_compute; reflexivity|]).
  contradiction.
Qed.

Lemma set_temperature_world `{Host} (info : device_info) (v : value) (w : world) :
  echoes ->
  let w1 := snd (B.async_set_temperature (B.__init__ info) {[ATTR_TEMPERATURE := v]} w) in
  requests w1
    = requests w ++ [Update (setpoint_write_register (info_prefix info)) (str repr_float v);
                     Update (override_register (info_prefix info)) "400";
                     RequestRefresh] /\
  warnings w1 = warnings w /\
  oids_of w1 !! override_register (info_prefix info) = Some "400".
Proof.
  intros He w1. subst w1. unfold B.async_set_temperature. run_monad.
  rewrite lookup_singleton_eq. cbn [default B.__init__ B._prefix].
  rewrite <- !app_assoc. cbn [app]. split; [reflexivity|]. split; [reflexivity|].
  unfold oids_of at 1. cbn [data_oids]. rewrite He. cbn [default requests].
  rewrite apply_updates_app. cbn [apply_updates].
  apply lookup_insert_eq.
Qed.

(** X10. On a device whose registers change only by the writes it
    receives, the override is armed and cancelled as follows, from any
    world.  After [async_set_temperature] both entities of the device report
    the preset ["7"].  A following [async_set_preset_mode] with a label of
    the fixed set then issues the mode write, the cancelling write of ["0"]
    to the override register and a refresh, after which both entities report
    the selected label. *)
Theorem override_is_armed_then_cancelled `{Host} (info : device_info) (v : value)
    (s : string) (w : world) :
  echoes ->
  In s preset_labels ->
  let w1 := snd (B.async_set_temperature (B.__init__ info) {[ATTR_TEMPERATURE := v]} w) in
  let w2 := snd (B.async_set_preset_mode (B.__init__ info) (Str s) w1) in
  (B.preset_mode (B.__init__ info) w1 = (Ok "7", w1) /\
   U.preset_mode (U.__init__ info) w1 = (Ok "7", w1)) /\
  requests w2
    = requests w1 ++ [Update (mode_register (info_prefix info)) s;
                      Update (override_register (info_prefix info)) "0";
                      RequestRefresh] /\
  (B.preset_mode (B.__init__ info) w2 = (Ok s, w2) /\
   U.preset_mode (U.__init__ info) w2 = (Ok s, w2)).
Proof.
  intros He Hs w1 w2.
  destruct (set_temperature_world info v w He) as (Hr1 & _ & Ho1). fold w1 in Hr1, Ho1.
  assert (Et : int (dict_get (oids_of w1) (override_register (info_prefix info)) (Int 0))
               = Ok 400).
  { unfold dict_get. rewrite Ho1. reflexivity. }
  split; [|split].
  - rewrite nobias_preset_mode_same, preset_mode_run, Et. now split.
  - subst w2. rewrite (set_preset_run info s w1 Hs), Et. cbv zeta. run_monad.
    rewrite <- !app_assoc. reflexivity.
  - assert (Hw2 : oids_of w2 !! override_register (info_prefix info) = Some "0" /\
                  oids_of w2 !! mode_register (info_prefix info) = Some s).
    { subst w2. rewrite (set_preset_run info s w1 Hs), Et. cbv zeta.
      change (Z.ltb 0 400) with true. cbv iota. run_monad.
      unfold oids_of at 1 2. cbn [data_oids]. rewrite He. cbn [default requests].
      rewrite !apply_updates_app. cbn [apply_updates]. unfold id. split.
      - apply lookup_insert_eq.
      - rewrite lookup_insert_ne by (apply not_eq_sym, mode_register_not_override).
        apply lookup_insert_eq. }
    destruct Hw2 as [Ho2 Hm2].
    destruct (label_round_trip s Hs) as (i & Ei & Eg).
    rewrite nobias_preset_mode_same, preset_mode_run.
    unfold dict_get. rewrite Ho2, Hm2.
    change (int (Str "0")) with (@Ok Z 0). cbn [Z.ltb Z.compare].
    rewrite Ei, Eg. now split.
Qed.

Lemma echo_host_echoes : echoes (H := echo_host).
Proof. intros w. reflexivity. Qed.

Lemma override_is_armed_then_cancelled_witness :
  B.preset_mode (B.__init__ heating_circuit)
    (snd (B.async_set_temperature (H := echo_host) (B.__init__ heating_circuit)
            {[ATTR_TEMPERATURE := Int 22]} (world_of comfort_mode [] [])))
  = (Ok "7",
     snd (B.async_set_temperature (H := echo_host) (B.__init__ heating_circuit)
            {[ATTR_TEMPERATURE := Int 22]} (world_of comfort_mode [] []))).
Proof.
  destruct (override_is_armed_then_cancelled (H := echo_host) heating_circuit (Int 22) "5"
              (world_of comfort_mode [] [])) as [[Hb _] _].
  - apply echo_host_echoes.
  - vm_compute. tauto.
  - exact Hb.
Defined.

(** X13. On a device whose registers change only by the writes it
    receives, [set_current_temp_compensation] takes effect on the class
    with bias and on it alone: if the text written for the compensation
    reads back as the float [y], then in the refreshed snapshot, whenever
    the current register reads as a float [x], the entity without bias
    reports [x] and the entity with bias reports [x - y]. *)
Theorem compensation_shifts_the_biased_reading `{Host} (info : device_info)
    (c : value) (y : spec_float) (w : world) :
  echoes ->
  float (Str (str repr_float c)) = Ok y ->
  let w1 := snd (B.set_current_temp_compensation (B.__init__ info) c w) in
  requests w1
    = requests w ++ [Update (bias_register (info_prefix info)) (str repr_float c);
                     RequestRefresh] /\
  forall x,
    float (dict_get (oids_of w1) (current_register (info_prefix info)) (Str "0")) = Ok x ->
    U.current_temperature (U.__init__ info) w1 = (Ok (Float x), w1) /\
    B.current_temperature (B.__init__ info) w1 = (Ok (Float (float_sub x y)), w1).
Proof.
  intros He Ey w1.
  assert (Hw : exists st, w1 = world_of st (requests w1) (warnings w1) /\
                 st !! bias_register (info_prefix info) = Some (str repr_float c)).
  { subst w1. unfold B.set_current_temp_compensation. run_monad. rewrite He.
    eexists. split; [reflexivity|].
    cbn [requests]. rewrite !apply_updates_app. cbn [apply_updates B.__init__ B._prefix].
    apply lookup_insert_eq. }
  destruct Hw as (st & Ew & Eb). split.
  - subst w1. unfold B.set_current_temp_compensation. run_monad.
    now rewrite <- !app_assoc.
  - intros x Ex. rewrite Ew in Ex |- *.
    change (oids_of (world_of st (requests w1) (warnings w1))) with st in Ex.
    apply (bias_is_subtracted info st (requests w1) (warnings w1) y); [|exact Ex].
    unfold dict_get. now rewrite Eb.
Qed.

Lemma compensation_shifts_the_biased_reading_witness :
  B.current_temperature (B.__init__ heating_circuit)
    (snd (B.set_current_temp_compensation (H := echo_host) (B.__init__ heating_circuit)
            (Int 1) (world_of unbiased_room [] [])))
  = (Ok (Float (float_sub (S754_finite false 6051711999279104 (-48))
                          (S754_finite false 4503599627370496 (-52)))),
     snd (B.set_current_temp_compensation (H := echo_host) (B.__init__ heating_circuit)
            (Int 1) (world_of unbiased_room [] []))).
Proof.
  destruct (compensation_shifts_the_biased_reading (H := echo_host) heating_circuit (Int 1)
              (S754_finite false 4503599627370496 (-52)) (world_of unbiased_room [] []))
    as [_ Hx].
  - apply echo_host_echoes.
  - vm_compute. reflexivity.
  - apply Hx. vm_compute. reflexivity.
Defined.

(** X14. [async_set_temperature] looks at the [temperature] keyword only.
    Whatever else the keywords hold, it writes [str] of that value; when
    the keyword is missing the value is [None], and the text ["None"] is
    written to the setpoint register, after which the override is armed
    and the refresh requested all the same.  Both classes. *)
Theorem set_temperature_without_temperature_keyword `{Host} (info : device_info)
    (kwargs : gmap string value) (w : world) :
  kwargs !! ATTR_TEMPERATURE = None ->
  (exists w',
     B.async_set_temperature (B.__init__ info) kwargs w = (Ok tt, w') /\
     issued w w'
       [Update (setpoint_write_register (info_prefix info)) "None";
        Update (override_register (info_prefix info)) "400";
        RequestRefresh]) /\
  (exists w',
     U.async_set_temperature (U.__init__ info) kwargs w = (Ok tt, w') /\
     issued w w'
       [Update (setpoint_write_register (info_prefix info)) "None";
        Update (override_register (info_prefix info)) "400";
        RequestRefresh]).
Proof.
  intros Ek. rewrite nobias_set_temperature_same.
  assert (G : exists w',
     B.async_set_temperature (B.__init__ info) kwargs w = (Ok tt, w') /\
     issued w w'
       [Update (setpoint_write_register (info_prefix info)) "None";
        Update (override_register (info_prefix info)) "400";
        RequestRefresh]).
  { eexists. split; [reflexivity|]. unfold issued. run_monad.
    rewrite Ek. cbn [default str]. rewrite <- !app_assoc. now split. }
  split; exact G.
Qed.

Lemma set_temperature_without_temperature_keyword_witness :
  exists w',
    B.async_set_temperature (H := still_host) (B.__init__ heating_circuit)
      {[ "target_temp_high" := Int 23 ]} (world_of comfort_mode [] []) = (Ok tt, w') /\
    issued (world_of comfort_mode [] []) w'
      [Update (setpoint_write_register "/1/15") "None";
       Update (override_register "/1/15") "400";
       RequestRefresh].
Proof.
  destruct (set_temperature_without_temperature_keyword (H := still_host)
              heating_circuit {[ "target_temp_high" := Int 23 ]}
              (world_of comfort_mode [] [])) as [Hb _].
  - vm_compute. reflexivity.
  - exact Hb.
Defined.
